(** * dialpad: batch management of Dialpad users through the admin API

    A shallow embedding of [dialpad.py] and [dialpad_settings.py].

    The script talks to three outside parties: the Dialpad HTTPS API, an SMTP
    relay and the output CSV file.  Every interaction is recorded, in program
    order, in a trace of events; the answers of the outside world come from an
    environment that may look at the whole history before answering.  Python
    exceptions are an explicit outcome of a computation.

    Not embedded: [logging] and [print] calls (they never steer control flow;
    the one [format] that can raise is kept, see [format_arg]), command-line
    parsing, opening and closing the two files, and [conn.close()], which
    [httplib] implements without raising. *)

From Stdlib Require Import ZArith NArith Ascii.
From stdpp Require Import gmap strings list.

Local Open Scope Z_scope.

(** ** Python values *)

(** [json.load] yields [unicode] objects, sequences of code points, for the
    strings of the input file; the fields of a record are JSON strings, as in
    the input format of the module docstring. *)
Definition unicode := list N.

Definition chars (s : string) : list ascii := String.list_ascii_of_string s.

(** Implicit ASCII decoding of a [str] literal, as done by [u == 'create']. *)
Definition decode (s : string) : unicode := N_of_ascii <$> chars s.

(** [str(u)] on a unicode object encodes with the ASCII codec; [None] stands
    for [UnicodeEncodeError]. *)
Fixpoint encode (u : unicode) : option string :=
  match u with
  | [] => Some EmptyString
  | c :: u' =>
      if (c <? 128)%N
      then String (ascii_of_N c) <$> encode u'
      else None
  end.

(** [row["action"] == 'create'] : a unicode object against an ASCII literal. *)
Definition unicode_eq (u : unicode) (lit : string) : bool :=
  bool_decide (u = decode lit).

(** [needle in haystack] on two [str] objects. *)
Fixpoint str_in (needle haystack : string) : bool :=
  String.prefix needle haystack
  || match haystack with
     | EmptyString => false
     | String _ rest => str_in needle rest
     end.

(** What the interpreter and its library leave open: the order in which a
    [dict] is iterated (hash order, fixed for one interpreter but not by the
    language), and [textwrap.dedent]. *)
Record Python := {
  dict_iter : list (string * string) → list (string * string);
  dict_iter_perm : ∀ items, dict_iter items ≡ₚ items;
  dedent : string → string
}.

(** ** dialpad_settings.py *)

Record Settings := {
  CLIENT_KEY : string;
  DOMAIN : string;
  FROM : string;
  TO : string;
  MAILSERVER : string;
  DEPTDICTIONARY : gmap string string
}.

Definition dialpad_settings : Settings := {|
  CLIENT_KEY := "";
  DOMAIN := "";
  FROM := "";
  TO := "";
  MAILSERVER := "";
  DEPTDICTIONARY :=
    <["History" := ""]>
      (<["Biology" := ""]>
         (<["Admissions" := "gdfsgds546456bdcbbc"]> ∅))
|}.

(** ** The outside world *)

(** One HTTPS exchange with dialpad.com, as seen by a [try] block: either
    something raised on the way, or a response came back. *)
Inductive http_reply :=
  | HttpExn
  | HttpResp (status : Z) (body : string).

Inductive event :=
  | Get (url : string) (reply : http_reply)
  | Mail (server frm to message : string) (sent : bool)
  | Row (cells : list string).

Record Env := {
  http_get : list event → string → http_reply;
  smtp_send : list event → string → string → string → string → bool
}.

Inductive exn :=
  | KeyError (key : string)
  | UnicodeEncodeError.

Inductive outcome (A : Type) :=
  | Returned (a : A)
  | Raised (e : exn).
Arguments Returned {A} a.
Arguments Raised {A} e.

(** ** Computations: state (the trace) and exceptions *)

Definition M (A : Type) : Type := Env → list event → outcome A * list event.

Definition ret {A} (a : A) : M A := λ _ tr, (Returned a, tr).

Definition raise {A} (e : exn) : M A := λ _ tr, (Raised e, tr).

Definition bind {A B} (c : M A) (k : A → M B) : M B :=
  λ env tr,
    match c env tr with
    | (Returned a, tr') => k a env tr'
    | (Raised e, tr') => (Raised e, tr')
    end.

Notation "x <- c ;; k" := (bind c (λ x, k))
  (at level 100, c at next level, right associativity).
Notation "c ;;; k" := (bind c (λ _, k))
  (at level 100, right associativity).

(** [try: c  except Exception: h] *)
Definition try_except {A} (c : M A) (h : exn → M A) : M A :=
  λ env tr,
    match c env tr with
    | (Returned a, tr') => (Returned a, tr')
    | (Raised e, tr') => h e env tr'
    end.

(** [conn.request("GET", url, "", headers); conn.getresponse()] and, for a
    200 answer, [response.read()]. *)
Definition request (url : string) : M http_reply :=
  λ env tr, let r := http_get env tr url in (Returned r, tr ++ [Get url r]).

(** [smtplib.SMTP(server); server.sendmail(frm, to, message); server.quit()] *)
Definition smtp (server frm to message : string) : M bool :=
  λ env tr,
    let ok := smtp_send env tr server frm to message in
    (Returned ok, tr ++ [Mail server frm to message ok]).

Definition emit (e : event) : M unit := λ _ tr, (Returned (), tr ++ [e]).

(** [row[key]] *)
Definition getitem (row : gmap string unicode) (key : string) : M unicode :=
  match row !! key with
  | Some v => ret v
  | None => raise (KeyError key)
  end.

(** [str(v)] *)
Definition str (v : unicode) : M string :=
  match encode v with
  | Some s => ret s
  | None => raise UnicodeEncodeError
  end.

(** ["...{0}".format(v)] with a [str] template and a unicode argument: the
    argument goes through the ASCII codec. *)
Definition format_arg (v : unicode) : M unit := str v ;;; ret ().

(** [writer.writerow(cells)] *)
Definition writerow (cells : list string) : M unit := emit (Row cells).

(** [for x in xs: body(x)] *)
Fixpoint for_each {A} (xs : list A) (body : A → M unit) : M unit :=
  match xs with
  | [] => ret ()
  | x :: xs' => body x ;;; for_each xs' body
  end.

(** ** dialpad.py *)

Section Dialpad.

Context (py : Python) (cfg : Settings).

(** The loop [for _item in params: if str(params[_item]) == "": ...] over an
    item list already in iteration order: the first name with an empty value. *)
Fixpoint first_missing (params : list (string * string)) : option string :=
  match params with
  | [] => None
  | (_item, value) :: rest =>
      if String.eqb value "" then Some _item else first_missing rest
  end.

Definition missing_msg (_item : string) : string :=
  "ERROR: Missing an expected input value for " +:+ _item +:+ " in input file.".

Definition user_url (upn : string) : string :=
  "/api/v1/admin/user?api_key=" +:+ CLIENT_KEY cfg +:+ "&email=" +:+ upn.

Definition findUser (upn : string) : M bool :=
  r <- request (user_url upn) ;;
  match r with
  | HttpResp status data =>
      if status =? 200
      then (if negb (str_in upn data) then ret false else ret true)
      else ret true
  | HttpExn => ret true
  end.

Definition findOfficeKey (ou : string) : option string :=
  DEPTDICTIONARY cfg !! ou.

(** [if office_key:] is false for [None] and for the empty string. *)
Definition truthy (office_key : option string) : bool :=
  match office_key with
  | Some k => negb (String.eqb k "")
  | None => false
  end.

Definition office_param (ou : string) : string :=
  let office_key := findOfficeKey ou in
  if truthy office_key
  then "&office_key=" +:+ default "" office_key
  else "".

Definition create_url (upn givenName sn office : string) : string :=
  user_url upn +:+ "&action=add&first_name=" +:+ givenName
    +:+ "&last_name=" +:+ sn +:+ office.

Definition create (username givenName sn ou : string) : M string :=
  match first_missing
          (dict_iter py [("username", username); ("givenName", givenName);
                         ("sn", sn); ("ou", ou)]) with
  | Some _item => ret (missing_msg _item)
  | None =>
      let upn := username +:+ "@" +:+ DOMAIN cfg in
      found <- findUser upn ;;
      if found then ret "ERROR: username already exists in Dialpad!"
      else
        let office := office_param ou in
        r <- request (create_url upn givenName sn office) ;;
        match r with
        | HttpResp status _ =>
            if negb (status =? 200)
            then ret "ERROR: could not create Dialpad user."
            else ret "SUCCESS: user was created in Dialpad."
        | HttpExn => ret "ERROR: could not create Dialpad user."
        end
  end.

Definition nl : string := String (ascii_of_nat 10) EmptyString.
Definition indent : string := "        ".

Definition sendMail (frm to subject text : string) : M unit :=
  let message :=
    dedent py
      (indent +:+ "From: " +:+ frm +:+ nl
       +:+ indent +:+ "To: " +:+ to +:+ nl
       +:+ indent +:+ "Subject: " +:+ subject +:+ nl
       +:+ indent +:+ text +:+ nl
       +:+ indent) in
  smtp (MAILSERVER cfg) frm to message ;;; ret ().

Definition update_url (upn action : string) : string :=
  user_url upn +:+ "&action=" +:+ action.

Definition update (username newusername loginDisabled : string) : M string :=
  match first_missing
          (dict_iter py [("username", username); ("newusername", newusername);
                         ("loginDisabled", loginDisabled)]) with
  | Some _item => ret (missing_msg _item)
  | None =>
      let upn := username +:+ "@" +:+ DOMAIN cfg in
      found <- findUser upn ;;
      if negb found then ret "ERROR: user could not be found in Dialpad!"
      else if negb (String.eqb username newusername) then
        let subject :=
          "Rename Dialpad user: " +:+ username +:+ " to " +:+ newusername in
        let text := "Please rename Dialpad user account manually." in
        sendMail (FROM cfg) (TO cfg) subject text ;;;
        ret "ERROR: renaming users in Dialpad is not supported - emailed Dialpad admin!"
      else
        let action :=
          if String.eqb loginDisabled "True" then "suspend" else "reactivate" in
        r <- request (update_url upn action) ;;
        match r with
        | HttpResp status _ =>
            if negb (status =? 200)
            then ret "ERROR: could not update Dialpad user."
            else ret "SUCCESS: user was updated in Dialpad."
        | HttpExn => ret "ERROR: Could not update Dialpad user."
        end
  end.

Definition delete_url (upn : string) : string :=
  user_url upn +:+ "&action=delete".

Definition delete (username : string) : M string :=
  if String.eqb username "" then
    ret "ERROR: Missing an expected input value for username in input file."
  else
    let upn := username +:+ "@" +:+ DOMAIN cfg in
    found <- findUser upn ;;
    if negb found then ret "ERROR: user could not be found in Dialpad!"
    else
      r <- request (delete_url upn) ;;
      match r with
      | HttpResp status _ =>
          if negb (status =? 200)
          then ret "ERROR: could not delete user in Dialpad."
          else ret "SUCCESS: user deleted in Dialpad."
      | HttpExn => ret "ERROR: Could not delete Dialpad user."
      end.

(** Lines 119-132 of [main]: select what needs to be done for one row. *)
Definition main_dispatch (row : gmap string unicode) : M string :=
  a <- getitem row "action" ;;
  if unicode_eq a "create" then
    username <- (v <- getitem row "username" ;; str v) ;;
    givenName <- (v <- getitem row "givenName" ;; str v) ;;
    sn <- (v <- getitem row "sn" ;; str v) ;;
    primO <- (v <- getitem row "primO" ;; str v) ;;
    create username givenName sn primO
  else if unicode_eq a "update" then
    username <- (v <- getitem row "username" ;; str v) ;;
    newusername <- (v <- getitem row "newusername" ;; str v) ;;
    loginDisabled <- (v <- getitem row "loginDisabled" ;; str v) ;;
    update username newusername loginDisabled
  else if unicode_eq a "delete" then
    username <- (v <- getitem row "username" ;; str v) ;;
    delete username
  else
    format_arg a ;;;
    ret "ERROR: Unrecognized action.".

(** Lines 119-135: the body of the loop, ending with the row written to the
    report; the csv writer turns the two unicode cells into [str]. *)
Definition main_step (row : gmap string unicode) : M unit :=
  result <- main_dispatch row ;;
  a <- getitem row "action" ;;
  u <- getitem row "username" ;;
  a' <- str a ;;
  u' <- str u ;;
  writerow [a'; u'; result].

Definition header : list string := ["action"; "username"; "result"].

(** Lines 109-148 for a batch already loaded and both files open: the header,
    the loop, and the handler that ends the run on any exception. *)
Definition main (useractions : list (gmap string unicode)) : M unit :=
  try_except
    (writerow header ;;; for_each useractions main_step)
    (λ _, ret ()).

End Dialpad.

(** The rows of the report, in the order they were written. *)
Definition report (tr : list event) : list (list string) :=
  omap (λ e, match e with Row cells => Some cells | _ => None end) tr.

(** ** dialpad.py: reading the settings *)

Section ReadConfig.

(** The objects a settings module binds to its names; the script stores them
    without looking inside. *)
Context {V : Type}.

(** [config_file[-3:]] *)
Definition last3 (config_file : string) : string :=
  String.substring (String.length config_file - 3)%nat 3 config_file.

(** [config_file[:-3]] *)
Definition drop_last3 (config_file : string) : string :=
  String.substring 0 (String.length config_file - 3)%nat config_file.

(** The name handed to [__import__]. *)
Definition module_name (config_file : string) : string :=
  if String.eqb (last3 config_file) ".py"
  then drop_last3 config_file
  else config_file.

(** The six assignments of the [try] block, in their order. *)
Definition setting_names : list string :=
  ["CLIENT_KEY"; "DOMAIN"; "FROM"; "TO"; "MAILSERVER"; "DEPTDICTIONARY"].

(** [global NAME; NAME = dialpadsettings.NAME] for each name in turn: a name
    the module does not bind raises [AttributeError], the handler returns
    [False], and the assignments made so far stay. *)
Fixpoint assign_globals
    (names : list string) (dialpadsettings globals : gmap string V)
    : bool * gmap string V :=
  match names with
  | [] => (true, globals)
  | name :: rest =>
      match dialpadsettings !! name with
      | Some v => assign_globals rest dialpadsettings (<[name := v]> globals)
      | None => (false, globals)
      end
  end.

(** [import_module name] is the module [__import__] returns, [None] when it
    raises; the call stands outside the [try], so that exception leaves
    [readConfig]. The result is the returned flag and the module globals. *)
Definition readConfig
    (import_module : string → option (gmap string V))
    (config_file : string) (globals : gmap string V)
    : option (bool * gmap string V) :=
  match import_module (module_name config_file) with
  | Some dialpadsettings =>
      Some (assign_globals setting_names dialpadsettings globals)
  | None => None
  end.

End ReadConfig.

(** ** dialpad.py: the two files of [main] *)

(** What [main] meets when it opens its files and parses the input:
    whether [open(in_file, 'rb')] and [open(out_file, 'wb')] succeed, and
    what [json.load(f_in)] gives: [None] when it raises, [Some None] for a
    document without a ["useractions"] list, else the records. *)
Record Disk := {
  readable : bool;
  writable : bool;
  document : option (option (list (gmap string unicode)))
}.

Inductive file_event :=
  | Open (name : string)
  | Close (name : string).

(** The local variables [f_in] and [f_out]: bound or not. *)
Record handles := { f_in : bool; f_out : bool }.

(** The one exception that leaves [main]. *)
Inductive fault :=
  | UnboundLocalError (name : string).

Section Files.

Context (py : Python) (cfg : Settings).

(** Lines 110-135, the [try] block, up to the point where it ends or raises;
    both handlers (lines 137-148) only print and log. The result is the
    variables bound, the files opened and the trace. *)
Definition try_block (disk : Disk) (env : Env) (tr : list event)
    : handles * list file_event * list event :=
  if negb (readable disk) then
    ({| f_in := false; f_out := false |}, [], tr)
  else if negb (writable disk) then
    ({| f_in := true; f_out := false |}, [Open "f_in"], tr)
  else
    let opened := [Open "f_in"; Open "f_out"] in
    let bound := {| f_in := true; f_out := true |} in
    match document disk with
    | None => (bound, opened, tr)
    | Some None => (bound, opened, (writerow header env tr).2)
    | Some (Some useractions) =>
        (bound, opened,
         ((writerow header ;;; for_each useractions (main_step py cfg)) env tr).2)
    end.

(** Lines 150-154: [f_in.close()] then [f_out.close()]; reading a local
    variable that was never assigned raises [UnboundLocalError]. *)
Definition finally_block (vars : handles) : option fault * list file_event :=
  if f_in vars then
    if f_out vars then (None, [Close "f_in"; Close "f_out"])
    else (Some (UnboundLocalError "f_out"), [Close "f_in"])
  else (Some (UnboundLocalError "f_in"), []).

(** Lines 109-156 of [main]. *)
Definition main_files (disk : Disk) (env : Env) (tr : list event)
    : option fault * list file_event * list event :=
  let '(vars, opened, tr') := try_block disk env tr in
  let '(raised, closed) := finally_block vars in
  (raised, opened ++ closed, tr').

End Files.

(** ** Vocabulary of the statements *)

Definition is_error (result : string) : bool := String.prefix "ERROR:" result.
Definition is_success (result : string) : bool := String.prefix "SUCCESS:" result.

(** The lookup failed entirely: an exception, or an answer other than 200. *)
Definition lookup_failed (r : http_reply) : Prop :=
  match r with
  | HttpExn => True
  | HttpResp status _ => status ≠ 200
  end.

(** [needle] occurs in [haystack] as a substring. *)
Definition substring_of (needle haystack : string) : Prop :=
  ∃ pre post, haystack = pre +:+ needle +:+ post.

(** A result is an error unless the last exchange of the record is an HTTP
    answer with status 200. *)
Definition error_unless_200 (result : string) (evs : list event) : Prop :=
  is_error result = true ∧ is_success result = false
  ∨ is_error result = false ∧ is_success result = true
    ∧ ∃ url body, last evs = Some (Get url (HttpResp 200 body)).

(** The text of a field that is present and ASCII. *)
Definition field (row : gmap string unicode) (key : string) : option string :=
  row !! key ≫= encode.

(** The fields the loop of [main] reads for a row, besides ["action"]. *)
Definition fields_read (a : unicode) : list string :=
  if unicode_eq a "create" then ["username"; "givenName"; "sn"; "primO"]
  else if unicode_eq a "update" then ["username"; "newusername"; "loginDisabled"]
  else ["username"].

(** Every field the loop reads for the row is there, and is ASCII text. *)
Definition well_formed (row : gmap string unicode) : bool :=
  match row !! "action" with
  | Some a =>
      bool_decide (is_Some (encode a))
      && forallb (λ key, bool_decide (is_Some (field row key))) (fields_read a)
  | None => false
  end.

(** The report written from trace position [tr] on holds the header and then
    one row per record of the batch, in the order of the batch. *)
Definition one_row_per_record
    (batch : list (gmap string unicode)) (written : list (list string)) : Prop :=
  ∃ results : list string,
    length results = length batch ∧
    written =
      header ::
        zip_with (λ row result,
                    [default "" (field row "action");
                     default "" (field row "username"); result])
                 batch results.

(** The rows of a batch up to the first one that is not well formed. *)
Fixpoint well_formed_prefix
    (batch : list (gmap string unicode)) : list (gmap string unicode) :=
  match batch with
  | [] => []
  | row :: rest =>
      if well_formed row then row :: well_formed_prefix rest else []
  end.

(** The directory and the relay answer a request the same way whatever came
    before it. *)
Definition history_free (env : Env) : Prop :=
  (∀ tr url, http_get env tr url = http_get env [] url)
  ∧ (∀ tr server frm to message,
       smtp_send env tr server frm to message
       = smtp_send env [] server frm to message).

(** A computation does after any history what it does from the empty one:
    same outcome, same new events. *)
Definition framed {A} (env : Env) (c : M A) : Prop :=
  ∀ tr, c env tr = ((c env []).1, tr ++ (c env []).2).

(** The result a record gets when it is processed alone. *)
Definition result_alone
    (py : Python) (cfg : Settings) (env : Env) (row : gmap string unicode)
    : string :=
  match (main_dispatch py cfg row env []).1 with
  | Returned result => result
  | Raised _ => ""
  end.

(** ** Sample interpreters, directories and records *)

(** A [dict] that iterates in insertion order. *)
Definition insertion_order : Python := {|
  dict_iter := id;
  dict_iter_perm := λ items, reflexivity items;
  dedent := id
|}.

(** A [dict] that iterates backwards. *)
Definition reverse_order : Python := {|
  dict_iter := reverse;
  dict_iter_perm := reverse_Permutation;
  dedent := id
|}.

(** A directory that answers every request with 200 and the given body, and
    a relay that accepts every message. *)
Definition directory (body : string) : Env := {|
  http_get := λ _ _, HttpResp 200 body;
  smtp_send := λ _ _ _ _ _, true
|}.

(** Nothing answers: every request raises and no mail goes out. *)
Definition unreachable : Env := {|
  http_get := λ _ _, HttpExn;
  smtp_send := λ _ _ _ _ _, false
|}.

(** The lookup finds the user, every later request is refused with 500; the
    relay is down. *)
Definition refusing (body : string) : Env := {|
  http_get := λ tr _, match tr with [] => HttpResp 200 body | _ => HttpResp 500 "" end;
  smtp_send := λ _ _ _ _ _, false
|}.

(** A record of the input file, from its fields as text. *)
Definition record (fields : list (string * string)) : gmap string unicode :=
  list_to_map (prod_map id decode <$> fields).

(** The sample record of the module docstring. *)
Definition testuserj : gmap string unicode :=
  record [("action", "create"); ("username", "testuserj");
          ("newusername", "testuserj"); ("loginDisabled", "False");
          ("givenName", "John"); ("sn", "Testuser"); ("primO", "Biology")].

(** A create record that lacks ["givenName"], ["sn"] and ["primO"]. *)
Definition bare_create : gmap string unicode :=
  record [("action", "create"); ("username", "jdoe")].

(** The sample record with a username outside ASCII ("j" and e-acute). *)
Definition accented : gmap string unicode :=
  <["username" := [106%N; 233%N]]> testuserj.


(** ** Strings *)

Lemma prefix_app (s t : string) : String.prefix s (s +:+ t) = true.
Proof.
  induction s as [|c s IH]; simpl.
  - by destruct t.
  - destruct (ascii_dec c c); [done | congruence].
Qed.

Lemma string_app_assoc (s t u : string) : (s +:+ t) +:+ u = s +:+ t +:+ u.
Proof.
  induction s as [|c s IH]; [done |].
  change (String c ((s +:+ t) +:+ u) = String c (s +:+ t +:+ u)).
  by rewrite IH.
Qed.

Lemma prefix_inv (s h : string) :
  String.prefix s h = true → ∃ post, h = s +:+ post.
Proof.
  revert h. induction s as [|c s IH]; intros h Hp.
  - by exists h.
  - destruct h as [|d h]; simpl in Hp; [done |].
    destruct (ascii_dec c d) as [-> |]; [| done].
    destruct (IH _ Hp) as [post ->]. by exists post.
Qed.

Lemma str_in_spec (needle haystack : string) :
  str_in needle haystack = true ↔ substring_of needle haystack.
Proof.
  split.
  - induction haystack as [|c h IH]; cbn [str_in]; intros Hin.
    + apply orb_true_iff in Hin as [Hp | ?]; [| done].
      destruct (prefix_inv _ _ Hp) as [post ->]. by exists "", post.
    + apply orb_true_iff in Hin as [Hp | Hr].
      * destruct (prefix_inv _ _ Hp) as [post Hpost].
        exists "", post. by rewrite Hpost.
      * destruct (IH Hr) as (pre & post & ->). by exists (String c pre), post.
  - intros (pre & post & ->). induction pre as [|c pre IH].
    + change ("" +:+ needle +:+ post) with (needle +:+ post).
      destruct (needle +:+ post) eqn:E; cbn [str_in]; rewrite <- E;
        by rewrite prefix_app.
    + change (String c pre +:+ needle +:+ post)
        with (String c (pre +:+ needle +:+ post)).
      cbn [str_in]. rewrite IH. apply orb_true_r.
Qed.

(** ** Validation *)

Lemma first_missing_None (params : list (string * string)) :
  Forall (λ p, p.2 ≠ "") params → first_missing params = None.
Proof.
  induction 1 as [|[k v] rest Hv _ IH]; simpl; [done |].
  simpl in Hv. apply String.eqb_neq in Hv. by rewrite Hv.
Qed.

Lemma first_missing_Some (params : list (string * string)) (_item : string) :
  first_missing params = Some _item → (_item, "") ∈ params.
Proof.
  induction params as [|[k v] rest IH]; simpl; [done |].
  destruct (String.eqb v "") eqn:E.
  - apply String.eqb_eq in E as ->. intros [= ->]. left.
  - intros H. right. by apply IH.
Qed.

Lemma first_missing_is_Some (params : list (string * string)) :
  Exists (λ p, p.2 = "") params → is_Some (first_missing params).
Proof.
  induction 1 as [[k v] rest Hv | [k v] rest _ IH]; simpl.
  - simpl in Hv. subst v. by eexists.
  - destruct (String.eqb v ""); [by eexists | done].
Qed.

Section Validation.

Context (py : Python).

Lemma validated (params : list (string * string)) :
  Forall (λ p, p.2 ≠ "") params → first_missing (dict_iter py params) = None.
Proof.
  intros H. apply first_missing_None. by rewrite dict_iter_perm.
Qed.

Lemma rejected (params : list (string * string)) :
  Exists (λ p, p.2 = "") params →
  ∃ _item, first_missing (dict_iter py params) = Some _item
           ∧ (_item, "") ∈ params.
Proof.
  intros H. rewrite <- (dict_iter_perm py) in H.
  destruct (first_missing_is_Some _ H) as [i Hi].
  exists i. split; [done |].
  rewrite <- (dict_iter_perm py). by apply first_missing_Some.
Qed.

End Validation.

(** ** The existence check *)

Section Existence.

Context (py : Python) (cfg : Settings) (env : Env).

Lemma findUser_run (upn : string) (tr : list event) :
  ∃ found,
    findUser cfg upn env tr =
      (Returned found,
       tr ++ [Get (user_url cfg upn) (http_get env tr (user_url cfg upn))]).
Proof.
  unfold findUser, bind, request; cbn zeta.
  destruct (http_get env tr (user_url cfg upn)) as [|status data].
  - by exists true.
  - destruct (status =? 200); [destruct (str_in upn data) |]; simpl; by eexists.
Qed.

Lemma findUser_failed (upn : string) (tr : list event) :
  lookup_failed (http_get env tr (user_url cfg upn)) →
  findUser cfg upn env tr =
    (Returned true,
     tr ++ [Get (user_url cfg upn) (http_get env tr (user_url cfg upn))]).
Proof.
  unfold findUser, bind, request; cbn zeta.
  destruct (http_get env tr (user_url cfg upn)) as [|status data]; simpl.
  - done.
  - intros Hne. apply Z.eqb_neq in Hne. by rewrite Hne.
Qed.

(** C10. [findUser] answers [False] exactly when the lookup came back with
    status 200 and the principal name is not a substring of the body read;
    so every 200 answer whose body contains the principal name anywhere
    counts as "user exists". The lookup is the only event of the check. *)
Theorem findUser_false_iff (upn : string) (tr : list event) :
  let reply := http_get env tr (user_url cfg upn) in
  ∃ found,
    findUser cfg upn env tr =
      (Returned found, tr ++ [Get (user_url cfg upn) reply])
    ∧ (found = false ↔
         ∃ body, reply = HttpResp 200 body ∧ ¬ substring_of upn body)
    ∧ (∀ pre post, reply = HttpResp 200 (pre +:+ upn +:+ post) → found = true).
Proof.
  intros reply. unfold findUser, bind, request; cbn zeta. fold reply.
  destruct reply as [|status data].
  - exists true. split; [done |]. split; [| done].
    split; [done | by intros (? & ? & _)].
  - destruct (Z.eqb_spec status 200) as [-> | Hne].
    + destruct (str_in upn data) eqn:Hin; simpl.
      * apply str_in_spec in Hin.
        exists true. split; [done |]. split; [| done].
        split; [done |]. by intros (body & [= <-] & Hno).
      * exists false. split; [done |]. split.
        -- split; [| done]. intros _. exists data. split; [done |].
           intros Hsub. apply str_in_spec in Hsub. congruence.
        -- intros pre post [= ->].
           assert (str_in upn (pre +:+ upn +:+ post) = true) as Hyes
             by (apply str_in_spec; by exists pre, post).
           congruence.
    + exists true. split; [done |]. split.
      * split; [done |]. intros (body & [= ? _] & _). done.
      * done.
Qed.

End Existence.

(** ** Steps shared by the three actions *)

Ltac validate :=
  rewrite validated by (repeat constructor; done); cbn zeta.

(** Run the existence check that opens the remaining work of an action. *)
Ltac lookup cfg env upn tr found Hrun :=
  destruct (findUser_run cfg env upn tr) as [found Hrun];
  unfold bind at 1; rewrite Hrun.

(** The request lines as text, as the [conn.request] calls spell them. *)
Lemma create_url_text (cfg : Settings) (upn givenName sn office : string) :
  create_url cfg upn givenName sn office
  = "/api/v1/admin/user?api_key=" +:+ CLIENT_KEY cfg +:+ "&email=" +:+ upn
      +:+ "&action=add&first_name=" +:+ givenName
      +:+ "&last_name=" +:+ sn +:+ office.
Proof.
  unfold create_url, user_url. by rewrite !string_app_assoc.
Qed.

Lemma update_url_text (cfg : Settings) (upn action : string) :
  update_url cfg upn action
  = "/api/v1/admin/user?api_key=" +:+ CLIENT_KEY cfg +:+ "&email=" +:+ upn
      +:+ "&action=" +:+ action.
Proof.
  unfold update_url, user_url. by rewrite !string_app_assoc.
Qed.

(** ** Create *)

Section Create.

Context (py : Python) (cfg : Settings) (env : Env).

(** C4. A create record with all four fields non-empty, for which the
    existence check answers "exists", gets the already-exists error, and the
    lookup is the only request issued for it: no create call. *)
Theorem create_existing (username givenName sn ou : string) (tr : list event) :
  username ≠ "" → givenName ≠ "" → sn ≠ "" → ou ≠ "" →
  let upn := username +:+ "@" +:+ DOMAIN cfg in
  (findUser cfg upn env tr).1 = Returned true →
  create py cfg username givenName sn ou env tr =
    (Returned "ERROR: username already exists in Dialpad!",
     tr ++ [Get (user_url cfg upn) (http_get env tr (user_url cfg upn))]).
Proof.
  intros Hu Hg Hs Ho upn Hfound. unfold create. validate.
  fold upn. lookup cfg env upn tr found Hrun.
  rewrite Hrun in Hfound. simpl in Hfound. by injection Hfound as ->.
Qed.

(** C9. Creating a user that the existence check does not find: the create
    call follows the lookup, and its request line, written out here as text,
    ends with no office parameter when the organizational unit has no entry
    in [DEPTDICTIONARY] or maps to the empty string, and with
    [&office_key=<key>] for a non-empty key. A missing mapping is no error: a
    200 answer to the create call gives SUCCESS. *)
Theorem create_office (username givenName sn ou : string) (tr : list event) :
  username ≠ "" → givenName ≠ "" → sn ≠ "" → ou ≠ "" →
  let upn := username +:+ "@" +:+ DOMAIN cfg in
  (findUser cfg upn env tr).1 = Returned false →
  ∃ office result,
    let found := Get (user_url cfg upn) (http_get env tr (user_url cfg upn)) in
    let url :=
      "/api/v1/admin/user?api_key=" +:+ CLIENT_KEY cfg +:+ "&email=" +:+ upn
        +:+ "&action=add&first_name=" +:+ givenName
        +:+ "&last_name=" +:+ sn +:+ office in
    let reply := http_get env (tr ++ [found]) url in
    create py cfg username givenName sn ou env tr =
      (Returned result, tr ++ [found; Get url reply])
    ∧ (DEPTDICTIONARY cfg !! ou = None → office = "")
    ∧ (DEPTDICTIONARY cfg !! ou = Some "" → office = "")
    ∧ (∀ key, DEPTDICTIONARY cfg !! ou = Some key → key ≠ "" →
         office = "&office_key=" +:+ key)
    ∧ (∀ body, reply = HttpResp 200 body →
         result = "SUCCESS: user was created in Dialpad.")
    ∧ (∀ status body, reply = HttpResp status body → status ≠ 200 →
         result = "ERROR: could not create Dialpad user.")
    ∧ (reply = HttpExn → result = "ERROR: could not create Dialpad user.").
Proof.
  intros Hu Hg Hs Ho upn Hfound. unfold create. validate.
  fold upn. lookup cfg env upn tr found Hrun.
  rewrite Hrun in Hfound. simpl in Hfound. injection Hfound as ->.
  cbn zeta. exists (office_param cfg ou).
  rewrite <- !create_url_text.
  unfold bind, request; cbn zeta. rewrite <- app_assoc. cbn [app].
  set (reply := http_get env _ _).
  assert (Hoffice :
    (DEPTDICTIONARY cfg !! ou = None → office_param cfg ou = "")
    ∧ (DEPTDICTIONARY cfg !! ou = Some "" → office_param cfg ou = "")
    ∧ (∀ key, DEPTDICTIONARY cfg !! ou = Some key → key ≠ "" →
         office_param cfg ou = "&office_key=" +:+ key)).
  { unfold office_param, findOfficeKey.
    split; [by intros -> |]. split; [by intros -> |].
    intros key -> Hkey. simpl. apply String.eqb_neq in Hkey. by rewrite Hkey. }
  destruct Hoffice as (Hnone & Hempty & Hkey).
  destruct reply as [|status body] eqn:Hreply.
  - eexists. split; [reflexivity |]. repeat split; try done.
  - destruct (Z.eqb_spec status 200) as [-> | Hne]; simpl.
    + eexists. split; [reflexivity |]. repeat split; try done.
      intros ?? [= <- _] ?. done.
    + eexists. split; [reflexivity |]. repeat split; try done.
      intros ? [= ? _]. done.
Qed.

(** Every run of [create] returns; it writes no report row, and its result is
    an error unless its last request was answered with 200. *)
Lemma create_run (username givenName sn ou : string) (tr : list event) :
  ∃ result evs,
    create py cfg username givenName sn ou env tr = (Returned result, tr ++ evs)
    ∧ report evs = [] ∧ error_unless_200 result evs.
Proof.
  unfold create. destruct (first_missing _) as [_item|].
  { exists (missing_msg _item), []. rewrite app_nil_r.
    split; [done |]. split; [done |]. by left. }
  cbn zeta. set (upn := username +:+ "@" +:+ DOMAIN cfg).
  lookup cfg env upn tr found Hrun. destruct found.
  { eexists _, [_]. split; [reflexivity |]. split; [done |]. by left. }
  clear Hrun. generalize (http_get env tr (user_url cfg upn)). intros r1.
  unfold bind, request; cbn zeta. rewrite <- app_assoc. cbn [app].
  destruct (http_get env _ _) as [|status body].
  - eexists _, [_; _]. split; [reflexivity |]. split; [done |]. by left.
  - destruct (Z.eqb_spec status 200) as [-> | Hne]; simpl;
      eexists _, [_; _]; (split; [reflexivity |]); (split; [done |]).
    + right. split; [done |]. split; [done |]. by eexists _, _.
    + by left.
Qed.

End Create.

(** ** Update *)

Section Update.

Context (py : Python) (cfg : Settings) (env : Env).

(** C5. An update record with non-empty fields for a user the existence
    check finds, asking for a new name: after the lookup exactly one mail is
    handed to the relay, whatever the relay answers the result is the
    rename-not-supported error, and no suspend or reactivate request is
    issued. *)
Theorem update_rename
    (username newusername loginDisabled : string) (tr : list event) :
  username ≠ "" → newusername ≠ "" → loginDisabled ≠ "" →
  let upn := username +:+ "@" +:+ DOMAIN cfg in
  (findUser cfg upn env tr).1 = Returned true →
  username ≠ newusername →
  ∃ message,
    let found := Get (user_url cfg upn) (http_get env tr (user_url cfg upn)) in
    let sent :=
      smtp_send env (tr ++ [found]) (MAILSERVER cfg) (FROM cfg) (TO cfg) message in
    update py cfg username newusername loginDisabled env tr =
      (Returned
         "ERROR: renaming users in Dialpad is not supported - emailed Dialpad admin!",
       tr ++ [found; Mail (MAILSERVER cfg) (FROM cfg) (TO cfg) message sent]).
Proof.
  intros Hu Hn Hl upn Hfound Hrename. unfold update. validate.
  fold upn. lookup cfg env upn tr found Hrun.
  rewrite Hrun in Hfound. simpl in Hfound. injection Hfound as ->.
  apply String.eqb_neq in Hrename. rewrite Hrename. simpl.
  unfold sendMail, bind, smtp; cbn zeta. rewrite <- app_assoc. cbn [app].
  by eexists.
Qed.

(** C8. An update record with non-empty fields for a user the existence
    check finds, keeping its name: the request that follows the lookup,
    written out here as text, ends in [&action=suspend] exactly when
    [loginDisabled] is the string [True] and in [&action=reactivate] for
    every other value; a 200 answer gives the updated SUCCESS, any other
    answer the could-not-update ERROR. *)
Theorem update_state (username loginDisabled : string) (tr : list event) :
  username ≠ "" → loginDisabled ≠ "" →
  let upn := username +:+ "@" +:+ DOMAIN cfg in
  (findUser cfg upn env tr).1 = Returned true →
  ∃ action result,
    let found := Get (user_url cfg upn) (http_get env tr (user_url cfg upn)) in
    let url :=
      "/api/v1/admin/user?api_key=" +:+ CLIENT_KEY cfg +:+ "&email=" +:+ upn
        +:+ "&action=" +:+ action in
    let reply := http_get env (tr ++ [found]) url in
    update py cfg username username loginDisabled env tr =
      (Returned result, tr ++ [found; Get url reply])
    ∧ (action = "suspend" ↔ loginDisabled = "True")
    ∧ (action = "reactivate" ↔ loginDisabled ≠ "True")
    ∧ (∀ body, reply = HttpResp 200 body →
         result = "SUCCESS: user was updated in Dialpad.")
    ∧ (∀ status body, reply = HttpResp status body → status ≠ 200 →
         result = "ERROR: could not update Dialpad user.").
Proof.
  intros Hu Hl upn Hfound. unfold update. validate.
  fold upn. lookup cfg env upn tr found Hrun.
  rewrite Hrun in Hfound. simpl in Hfound. injection Hfound as ->.
  rewrite String.eqb_refl. simpl.
  unfold bind, request; cbn zeta. rewrite <- app_assoc. cbn [app].
  exists (if String.eqb loginDisabled "True" then "suspend" else "reactivate").
  rewrite <- !update_url_text.
  assert (Haction :
    ((if String.eqb loginDisabled "True" then "suspend" else "reactivate")
       = "suspend" ↔ loginDisabled = "True")
    ∧ ((if String.eqb loginDisabled "True" then "suspend" else "reactivate")
         = "reactivate" ↔ loginDisabled ≠ "True")).
  { destruct (String.eqb_spec loginDisabled "True"); split; split; done. }
  destruct Haction as [Hsuspend Hreactivate].
  set (reply := http_get env _ _).
  destruct reply as [|status body].
  - eexists. split; [reflexivity |]. repeat split; try done; tauto.
  - destruct (Z.eqb_spec status 200) as [-> | Hne]; simpl;
      eexists; (split; [reflexivity |]);
      (split; [done |]); (split; [done |]); split; try done.
    + by intros ? ? [= <- _] ?.
    + by intros ? [= ? _].
Qed.

(** Every run of [update] returns; it writes no report row, and its result is
    an error unless its last request was answered with 200. *)
Lemma update_run
    (username newusername loginDisabled : string) (tr : list event) :
  ∃ result evs,
    update py cfg username newusername loginDisabled env tr =
      (Returned result, tr ++ evs)
    ∧ report evs = [] ∧ error_unless_200 result evs.
Proof.
  unfold update. destruct (first_missing _) as [_item|].
  { exists (missing_msg _item), []. rewrite app_nil_r.
    split; [done |]. split; [done |]. by left. }
  cbn zeta. set (upn := username +:+ "@" +:+ DOMAIN cfg).
  lookup cfg env upn tr found Hrun.
  clear Hrun. generalize (http_get env tr (user_url cfg upn)). intros r1.
  destruct found; simpl.
  2: { eexists _, [_]. split; [reflexivity |]. split; [done |]. by left. }
  destruct (String.eqb username newusername); simpl.
  - unfold bind, request; cbn zeta. rewrite <- app_assoc. cbn [app].
    destruct (http_get env _ _) as [|status body].
    + eexists _, [_; _]. split; [reflexivity |]. split; [done |]. by left.
    + destruct (Z.eqb_spec status 200) as [-> | Hne]; simpl;
        eexists _, [_; _]; (split; [reflexivity |]); (split; [done |]).
      * right. split; [done |]. split; [done |]. by eexists _, _.
      * by left.
  - unfold sendMail, bind, smtp; cbn zeta. rewrite <- app_assoc. cbn [app].
    eexists _, [_; _]. split; [reflexivity |]. split; [done |]. by left.
Qed.

End Update.

(** ** Delete *)

Section Delete.

Context (cfg : Settings) (env : Env).

(** Every run of [delete] returns; it writes no report row, and its result is
    an error unless its last request was answered with 200. *)
Lemma delete_run (username : string) (tr : list event) :
  ∃ result evs,
    delete cfg username env tr = (Returned result, tr ++ evs)
    ∧ report evs = [] ∧ error_unless_200 result evs.
Proof.
  unfold delete. destruct (String.eqb username "").
  { eexists _, []. rewrite app_nil_r.
    split; [reflexivity |]. split; [done |]. by left. }
  cbn zeta. set (upn := username +:+ "@" +:+ DOMAIN cfg).
  lookup cfg env upn tr found Hrun.
  clear Hrun. generalize (http_get env tr (user_url cfg upn)). intros r1.
  destruct found; simpl.
  2: { eexists _, [_]. split; [reflexivity |]. split; [done |]. by left. }
  unfold bind, request; cbn zeta. rewrite <- app_assoc. cbn [app].
  destruct (http_get env _ _) as [|status body].
  - eexists _, [_; _]. split; [reflexivity |]. split; [done |]. by left.
  - destruct (Z.eqb_spec status 200) as [-> | Hne]; simpl;
      eexists _, [_; _]; (split; [reflexivity |]); (split; [done |]).
    + right. split; [done |]. split; [done |]. by eexists _, _.
    + by left.
Qed.

End Delete.

(** ** Properties across the three actions *)

Section Actions.

Context (py : Python) (cfg : Settings) (env : Env).

(** C6. An update or delete record with non-empty fields for a user the
    existence check does not find gets the could-not-be-found error, and the
    lookup is the only event: no update or delete request, and for an update
    that asks for a new name no mail either. *)
Theorem absent_user
    (username newusername loginDisabled : string) (tr : list event) :
  username ≠ "" →
  let upn := username +:+ "@" +:+ DOMAIN cfg in
  (findUser cfg upn env tr).1 = Returned false →
  let found := Get (user_url cfg upn) (http_get env tr (user_url cfg upn)) in
  (newusername ≠ "" → loginDisabled ≠ "" →
     update py cfg username newusername loginDisabled env tr =
       (Returned "ERROR: user could not be found in Dialpad!", tr ++ [found]))
  ∧ delete cfg username env tr =
      (Returned "ERROR: user could not be found in Dialpad!", tr ++ [found]).
Proof.
  intros Hu upn Hfound found.
  destruct (findUser_run cfg env upn tr) as [b Hrun].
  rewrite Hrun in Hfound. simpl in Hfound. injection Hfound as ->.
  split.
  - intros Hn Hl. unfold update. validate. fold upn.
    unfold bind at 1. by rewrite Hrun.
  - unfold delete. apply String.eqb_neq in Hu. rewrite Hu. cbn zeta. fold upn.
    unfold bind at 1. by rewrite Hrun.
Qed.

(** C7. A record with an empty required field is rejected before anything is
    sent: the result is the missing-value error whose text names a parameter
    whose value is empty, and the trace is left as it was. *)
Theorem empty_field_rejected (tr : list event) :
  (∀ username givenName sn ou,
     username = "" ∨ givenName = "" ∨ sn = "" ∨ ou = "" →
     ∃ _item,
       create py cfg username givenName sn ou env tr =
         (Returned ("ERROR: Missing an expected input value for " +:+ _item
                    +:+ " in input file."), tr)
       ∧ (_item, "") ∈ [("username", username); ("givenName", givenName);
                         ("sn", sn); ("ou", ou)])
  ∧ (∀ username newusername loginDisabled,
       username = "" ∨ newusername = "" ∨ loginDisabled = "" →
       ∃ _item,
         update py cfg username newusername loginDisabled env tr =
           (Returned ("ERROR: Missing an expected input value for " +:+ _item
                      +:+ " in input file."), tr)
         ∧ (_item, "") ∈ [("username", username); ("newusername", newusername);
                           ("loginDisabled", loginDisabled)])
  ∧ delete cfg "" env tr =
      (Returned "ERROR: Missing an expected input value for username in input file.",
       tr).
Proof.
  split; [| split].
  - intros username givenName sn ou Hempty.
    destruct (rejected py [("username", username); ("givenName", givenName);
                           ("sn", sn); ("ou", ou)]) as (_item & Hfirst & Hin).
    { rewrite !Exists_cons. simpl. tauto. }
    exists _item. split; [| done]. unfold create. by rewrite Hfirst.
  - intros username newusername loginDisabled Hempty.
    destruct (rejected py [("username", username); ("newusername", newusername);
                           ("loginDisabled", loginDisabled)])
      as (_item & Hfirst & Hin).
    { rewrite !Exists_cons. simpl. tauto. }
    exists _item. split; [| done]. unfold update. by rewrite Hfirst.
  - reflexivity.
Qed.

(** C3. For every principal name, when the lookup fails entirely (it raises,
    or the answer is not 200) [findUser] answers "exists". A create record
    for that name then gets the already-exists error with no create request;
    an update goes on to its suspend or reactivate request, or to the rename
    mail; a delete goes on to its delete request. *)
Theorem failed_lookup_counts_as_found (upn : string) (tr : list event) :
  let reply := http_get env tr (user_url cfg upn) in
  lookup_failed reply →
  let found := Get (user_url cfg upn) reply in
  findUser cfg upn env tr = (Returned true, tr ++ [found])
  ∧ (∀ username givenName sn ou,
       upn = username +:+ "@" +:+ DOMAIN cfg →
       username ≠ "" → givenName ≠ "" → sn ≠ "" → ou ≠ "" →
       create py cfg username givenName sn ou env tr =
         (Returned "ERROR: username already exists in Dialpad!", tr ++ [found]))
  ∧ (∀ username loginDisabled,
       upn = username +:+ "@" +:+ DOMAIN cfg →
       username ≠ "" → loginDisabled ≠ "" →
       ∃ action result,
         update py cfg username username loginDisabled env tr =
           (Returned result,
            tr ++ [found;
                   Get (update_url cfg upn action)
                       (http_get env (tr ++ [found]) (update_url cfg upn action))]))
  ∧ (∀ username newusername loginDisabled,
       upn = username +:+ "@" +:+ DOMAIN cfg →
       username ≠ "" → newusername ≠ "" → loginDisabled ≠ "" →
       username ≠ newusername →
       ∃ message sent,
         update py cfg username newusername loginDisabled env tr =
           (Returned
              "ERROR: renaming users in Dialpad is not supported - emailed Dialpad admin!",
            tr ++ [found; Mail (MAILSERVER cfg) (FROM cfg) (TO cfg) message sent]))
  ∧ (∀ username,
       upn = username +:+ "@" +:+ DOMAIN cfg →
       username ≠ "" →
       ∃ result,
         delete cfg username env tr =
           (Returned result,
            tr ++ [found;
                   Get (delete_url cfg upn)
                       (http_get env (tr ++ [found]) (delete_url cfg upn))])).
Proof.
  intros reply Hfailed found.
  pose proof (findUser_failed cfg env upn tr Hfailed) as Hrun.
  fold reply in Hrun. fold found in Hrun.
  split; [done |]. split; [| split; [| split]].
  - intros username givenName sn ou Hupn Hu Hg Hs Ho.
    unfold create. validate. rewrite <- Hupn.
    unfold bind at 1. by rewrite Hrun.
  - intros username loginDisabled Hupn Hu Hl.
    unfold update. validate. rewrite <- Hupn.
    unfold bind at 1. rewrite Hrun. rewrite String.eqb_refl. simpl.
    unfold bind, request; cbn zeta. rewrite <- app_assoc. cbn [app].
    exists (if String.eqb loginDisabled "True" then "suspend" else "reactivate").
    destruct (http_get env (tr ++ _) _) as [|status body].
    + eexists. reflexivity.
    + destruct (negb (status =? 200)); eexists; reflexivity.
  - intros username newusername loginDisabled Hupn Hu Hn Hl Hrename.
    unfold update. validate. rewrite <- Hupn.
    unfold bind at 1. rewrite Hrun.
    apply String.eqb_neq in Hrename. rewrite Hrename. simpl.
    unfold sendMail, bind, smtp; cbn zeta. rewrite <- app_assoc. cbn [app].
    by eexists _, _.
  - intros username Hupn Hu.
    unfold delete. apply String.eqb_neq in Hu. rewrite Hu.
    cbn zeta. rewrite <- Hupn. unfold bind at 1. rewrite Hrun. simpl.
    unfold bind, request; cbn zeta. rewrite <- app_assoc. cbn [app].
    destruct (http_get env (tr ++ _) _) as [|status body].
    + eexists. reflexivity.
    + destruct (negb (status =? 200)); eexists; reflexivity.
Qed.

End Actions.

(** ** The batch loop *)

Lemma bind_run {A B} (c : M A) (k : A → M B) env tr a tr' :
  c env tr = (Returned a, tr') → bind c k env tr = k a env tr'.
Proof. intros Hc. unfold bind. by rewrite Hc. Qed.

Lemma getitem_run row key v env tr :
  row !! key = Some v → getitem row key env tr = (Returned v, tr).
Proof. intros Hv. unfold getitem. by rewrite Hv. Qed.

Lemma str_run v s env tr :
  encode v = Some s → str v env tr = (Returned s, tr).
Proof. intros Hs. unfold str. by rewrite Hs. Qed.

(** [str(row[key])] on a field that is present and ASCII. *)
Lemma read_run row key s env tr :
  field row key = Some s →
  (v <- getitem row key ;; str v) env tr = (Returned s, tr).
Proof.
  unfold field. destruct (row !! key) as [v|] eqn:Hv; [| done]. simpl.
  intros Hs. rewrite (bind_run _ _ _ _ _ _ (getitem_run _ _ _ _ _ Hv)).
  by apply str_run.
Qed.

Lemma report_app (tr evs : list event) :
  report (tr ++ evs) = report tr ++ report evs.
Proof. apply omap_app. Qed.

Ltac fields H :=
  simpl in H;
  repeat (apply andb_true_iff in H as [[? ?]%bool_decide_eq_true H]);
  clear H.

Ltac read_field H := rewrite (bind_run _ _ _ _ _ _ (read_run _ _ _ _ _ H)).

Section Batch.

Context (py : Python) (cfg : Settings) (env : Env).

(** One turn of the loop on a well-formed row: the dispatch returns a result
    of the kind the three actions give, and the row is written. *)
Lemma main_step_run (row : gmap string unicode) (tr : list event) :
  well_formed row = true →
  ∃ a u result evs,
    field row "action" = Some a ∧ field row "username" = Some u
    ∧ main_dispatch py cfg row env tr = (Returned result, tr ++ evs)
    ∧ report evs = [] ∧ error_unless_200 result evs
    ∧ main_step py cfg row env tr =
        (Returned (), tr ++ evs ++ [Row [a; u; result]]).
Proof.
  unfold well_formed. destruct (row !! "action") as [a|] eqn:Ha; [| done].
  intros [[a' Ha']%bool_decide_eq_true Hkeys]%andb_true_iff.
  assert (Haction : field row "action" = Some a')
    by (unfold field; by rewrite Ha).
  assert (∃ u, field row "username" = Some u) as [u Hu].
  { unfold fields_read in Hkeys.
    destruct (unicode_eq a "create"); [| destruct (unicode_eq a "update")];
      fields Hkeys; by eexists. }
  assert (∃ result evs,
            main_dispatch py cfg row env tr = (Returned result, tr ++ evs)
            ∧ report evs = [] ∧ error_unless_200 result evs)
    as (result & evs & Hrun & Hrows & Hkind).
  { unfold main_dispatch.
    rewrite (bind_run _ _ _ _ _ _ (getitem_run _ _ _ _ _ Ha)).
    unfold fields_read in Hkeys.
    destruct (unicode_eq a "create"); [| destruct (unicode_eq a "update")].
    - fields Hkeys.
      repeat match goal with H : field row _ = Some _ |- _ =>
               read_field H; clear H end.
      apply create_run.
    - fields Hkeys.
      repeat match goal with H : field row _ = Some _ |- _ =>
               read_field H; clear H end.
      apply update_run.
    - destruct (unicode_eq a "delete").
      + read_field Hu. apply delete_run.
      + unfold format_arg.
        rewrite (bind_run _ _ _ _ _ _
                   (bind_run _ _ _ _ _ _ (str_run _ _ _ _ Ha'))).
        eexists _, []. rewrite app_nil_r.
        split; [reflexivity |]. split; [done |]. by left. }
  exists a', u, result, evs. repeat (split; [done |]).
  unfold main_step. rewrite (bind_run _ _ _ _ _ _ Hrun).
  rewrite (bind_run _ _ _ _ _ _ (getitem_run _ _ _ _ _ Ha)).
  unfold field in Hu. destruct (row !! "username") as [v|] eqn:Hv; [| done].
  simpl in Hu.
  rewrite (bind_run _ _ _ _ _ _ (getitem_run _ _ _ _ _ Hv)).
  rewrite (bind_run _ _ _ _ _ _ (str_run _ _ _ _ Ha')).
  rewrite (bind_run _ _ _ _ _ _ (str_run _ _ _ _ Hu)).
  unfold writerow, emit. by rewrite app_assoc.
Qed.

(** The loop over a batch of well-formed rows runs to its end and writes one
    row per record, in order. *)
Lemma main_loop_run (batch : list (gmap string unicode)) (tr : list event) :
  Forall (λ row, well_formed row = true) batch →
  ∃ tr' results,
    for_each batch (main_step py cfg) env tr = (Returned (), tr')
    ∧ length results = length batch
    ∧ report tr' =
        report tr ++
          zip_with (λ row result,
                      [default "" (field row "action");
                       default "" (field row "username"); result])
                   batch results.
Proof.
  intros Hbatch. revert tr.
  induction Hbatch as [|row batch Hrow _ IH]; intros tr.
  - exists tr, []. simpl. by rewrite app_nil_r.
  - destruct (main_step_run row tr Hrow)
      as (a & u & result & evs & Ha & Hu & _ & Hrows & _ & Hstep).
    destruct (IH (tr ++ evs ++ [Row [a; u; result]]))
      as (tr' & results & Hloop & Hlen & Hreport).
    exists tr', (result :: results). cbn [for_each].
    rewrite (bind_run _ _ _ _ _ _ Hstep). split; [done |].
    split; [simpl; by rewrite Hlen |].
    rewrite Hreport, !report_app, Hrows. cbn [zip_with].
    rewrite Ha, Hu. simpl. by rewrite <- app_assoc.
Qed.

(** C1, as the code has it. For every batch whose records all carry, as ASCII
    text, the fields the loop reads for their action, [main] returns and the
    report it wrote holds the header and then one row per record, in the
    order of the batch, whatever the directory and the relay answer. *)
Theorem report_per_record
    (batch : list (gmap string unicode)) (tr : list event) :
  Forall (λ row, well_formed row = true) batch →
  ∃ tr' written,
    main py cfg batch env tr = (Returned (), tr')
    ∧ report tr' = report tr ++ written
    ∧ one_row_per_record batch written.
Proof.
  intros Hbatch.
  destruct (main_loop_run batch (tr ++ [Row header]) Hbatch)
    as (tr' & results & Hloop & Hlen & Hreport).
  exists tr', (header :: zip_with (λ row result,
                      [default "" (field row "action");
                       default "" (field row "username"); result])
                   batch results).
  split; [| split].
  - unfold main, try_except, writerow, emit.
    unfold bind at 1. by rewrite Hloop.
  - rewrite Hreport, report_app. simpl. by rewrite <- app_assoc.
  - by exists results.
Qed.


End Batch.

(** ** The properties at work on sample inputs *)

Lemma report_per_record_witness :
  ∃ tr' written,
    main insertion_order dialpad_settings
         [testuserj; record [("action", "zap"); ("username", "q")]]
         (directory "") [] = (Returned (), tr')
    ∧ report tr' = report [] ++ written
    ∧ one_row_per_record
        [testuserj; record [("action", "zap"); ("username", "q")]] written.
Proof.
  apply (report_per_record insertion_order dialpad_settings (directory "")).
  repeat constructor.
Defined.

(** C1, as stated, fails: the first record lacks ["givenName"], the lookup
    [row["givenName"]] raises, the handler around the loop ends the run, and
    the report holds the header and no row at all for the two records. *)
Lemma report_short_on_missing_field :
  ¬ one_row_per_record [bare_create; testuserj]
      (report (main insertion_order dialpad_settings [bare_create; testuserj]
                    (directory "") []).2).
Proof.
  assert (report (main insertion_order dialpad_settings [bare_create; testuserj]
                       (directory "") []).2 = [header]) as -> by reflexivity.
  intros (results & Hlen & Hrows).
  destruct results as [|r1 [|r2 results]]; simpl in Hlen, Hrows; discriminate.
Qed.



Lemma failed_lookup_witness :
  findUser dialpad_settings "jdoe@" unreachable []
    = (Returned true,
       [Get "/api/v1/admin/user?api_key=&email=jdoe@" HttpExn])
  ∧ create insertion_order dialpad_settings "jdoe" "Jane" "Doe" "Biology"
           unreachable []
    = (Returned "ERROR: username already exists in Dialpad!",
       [Get "/api/v1/admin/user?api_key=&email=jdoe@" HttpExn]).
Proof.
  destruct (failed_lookup_counts_as_found
              insertion_order dialpad_settings unreachable "jdoe@" [] I)
    as (Hfound & Hcreate & _).
  split; [exact Hfound | by apply Hcreate].
Defined.

Lemma create_existing_witness :
  create insertion_order dialpad_settings "jdoe" "Jane" "Doe" "Biology"
         (directory "jdoe@") []
    = (Returned "ERROR: username already exists in Dialpad!",
       [Get "/api/v1/admin/user?api_key=&email=jdoe@" (HttpResp 200 "jdoe@")]).
Proof.
  by apply (create_existing insertion_order dialpad_settings (directory "jdoe@")
              "jdoe" "Jane" "Doe" "Biology" []).
Defined.

Lemma update_rename_witness :
  ∃ message,
    update insertion_order dialpad_settings "jdoe" "jdoe2" "True"
           (refusing "jdoe@") []
      = (Returned
           "ERROR: renaming users in Dialpad is not supported - emailed Dialpad admin!",
         [Get "/api/v1/admin/user?api_key=&email=jdoe@" (HttpResp 200 "jdoe@");
          Mail "" "" "" message false]).
Proof.
  by apply (update_rename insertion_order dialpad_settings (refusing "jdoe@")
              "jdoe" "jdoe2" "True" []).
Defined.

Lemma absent_user_witness :
  update insertion_order dialpad_settings "jdoe" "jdoe2" "True" (directory "") []
    = (Returned "ERROR: user could not be found in Dialpad!",
       [Get "/api/v1/admin/user?api_key=&email=jdoe@" (HttpResp 200 "")])
  ∧ delete dialpad_settings "jdoe" (directory "") []
    = (Returned "ERROR: user could not be found in Dialpad!",
       [Get "/api/v1/admin/user?api_key=&email=jdoe@" (HttpResp 200 "")]).
Proof.
  destruct (absent_user insertion_order dialpad_settings (directory "")
              "jdoe" "jdoe2" "True" []) as [Hupdate Hdelete]; [done.. |].
  split; [by apply Hupdate | exact Hdelete].
Defined.

(** [True] suspends; [true], in another case, reactivates. *)
Lemma update_state_witness :
  update insertion_order dialpad_settings "jdoe" "jdoe" "True"
         (directory "jdoe@") []
    = (Returned "SUCCESS: user was updated in Dialpad.",
       [Get "/api/v1/admin/user?api_key=&email=jdoe@" (HttpResp 200 "jdoe@");
        Get "/api/v1/admin/user?api_key=&email=jdoe@&action=suspend"
            (HttpResp 200 "jdoe@")])
  ∧ update insertion_order dialpad_settings "jdoe" "jdoe" "true"
           (directory "jdoe@") []
    = (Returned "SUCCESS: user was updated in Dialpad.",
       [Get "/api/v1/admin/user?api_key=&email=jdoe@" (HttpResp 200 "jdoe@");
        Get "/api/v1/admin/user?api_key=&email=jdoe@&action=reactivate"
            (HttpResp 200 "jdoe@")]).
Proof.
  split.
  - destruct (update_state insertion_order dialpad_settings (directory "jdoe@")
                "jdoe" "True" [])
      as (action & result & Hrun & Hsuspend & _ & Hok & _); [done.. |].
    assert (action = "suspend") as -> by (by apply Hsuspend).
    rewrite Hrun. by rewrite (Hok "jdoe@" eq_refl).
  - destruct (update_state insertion_order dialpad_settings (directory "jdoe@")
                "jdoe" "true" [])
      as (action & result & Hrun & _ & Hreactivate & Hok & _); [done.. |].
    assert (action = "reactivate") as -> by (by apply Hreactivate).
    rewrite Hrun. by rewrite (Hok "jdoe@" eq_refl).
Defined.

(** The end-to-end example: "Biology" maps to the empty string, and the user
    is created with no office parameter; "Admissions" has a key, and the
    request carries it. *)
Lemma create_office_witness :
  create insertion_order dialpad_settings "jdoe" "Jane" "Doe" "Biology"
         (directory "") []
    = (Returned "SUCCESS: user was created in Dialpad.",
       [Get "/api/v1/admin/user?api_key=&email=jdoe@" (HttpResp 200 "");
        Get "/api/v1/admin/user?api_key=&email=jdoe@&action=add&first_name=Jane&last_name=Doe"
            (HttpResp 200 "")])
  ∧ create insertion_order dialpad_settings "jdoe" "Jane" "Doe" "Admissions"
           (directory "") []
    = (Returned "SUCCESS: user was created in Dialpad.",
       [Get "/api/v1/admin/user?api_key=&email=jdoe@" (HttpResp 200 "");
        Get "/api/v1/admin/user?api_key=&email=jdoe@&action=add&first_name=Jane&last_name=Doe&office_key=gdfsgds546456bdcbbc"
            (HttpResp 200 "")]).
Proof.
  split.
  - destruct (create_office insertion_order dialpad_settings (directory "")
                "jdoe" "Jane" "Doe" "Biology" [])
      as (office & result & Hrun & _ & Hempty & _ & Hok & _); [done.. |].
    assert (office = "") as -> by (by apply Hempty).
    rewrite Hrun. by rewrite (Hok "" eq_refl).
  - destruct (create_office insertion_order dialpad_settings (directory "")
                "jdoe" "Jane" "Doe" "Admissions" [])
      as (office & result & Hrun & _ & _ & Hkey & Hok & _); [done.. |].
    assert (office = "&office_key=gdfsgds546456bdcbbc") as ->
      by (by apply Hkey).
    rewrite Hrun. by rewrite (Hok "" eq_refl).
Defined.

(** A single empty field is the one the message names: [sn] for a create,
    [loginDisabled] for an update, whatever the iteration order. *)
Lemma empty_field_rejected_witness :
  create reverse_order dialpad_settings "jdoe" "Jane" "" "Biology" unreachable []
    = (Returned "ERROR: Missing an expected input value for sn in input file.",
       [])
  ∧ update reverse_order dialpad_settings "jdoe" "jdoe" "" unreachable []
    = (Returned
         "ERROR: Missing an expected input value for loginDisabled in input file.",
       []).
Proof.
  destruct (empty_field_rejected reverse_order dialpad_settings unreachable [])
    as (Hcreate & Hupdate & _).
  split.
  - destruct (Hcreate "jdoe" "Jane" "" "Biology") as (_item & Hrun & Hin);
      [tauto |].
    assert (_item = "sn") as ->; [| exact Hrun].
    repeat (apply elem_of_cons in Hin as [[= ?] | Hin]; try done).
    by apply elem_of_nil in Hin.
  - destruct (Hupdate "jdoe" "jdoe" "") as (_item & Hrun & Hin); [tauto |].
    assert (_item = "loginDisabled") as ->; [| exact Hrun].
    repeat (apply elem_of_cons in Hin as [[= ?] | Hin]; try done).
    by apply elem_of_nil in Hin.
Defined.

(** The directory lists only [jdoe@]; the lookup for [doe@] still counts as
    found, because [doe@] occurs inside the body. *)
Lemma findUser_substring_witness :
  findUser dialpad_settings "doe@" (directory "jdoe@") []
    = (Returned true,
       [Get "/api/v1/admin/user?api_key=&email=doe@" (HttpResp 200 "jdoe@")]).
Proof.
  destruct (findUser_false_iff dialpad_settings (directory "jdoe@") "doe@" [])
    as (found & Hrun & _ & Hsub).
  rewrite Hrun. by rewrite (Hsub "j" "" eq_refl).
Defined.

(** [str(row["username"])] raises on a username outside ASCII, which ends
    the run like a missing field does. *)
Example non_ascii_ends_run :
  main insertion_order dialpad_settings [accented; testuserj] (directory "") []
    = (Returned (), [Row header]).
Proof. reflexivity. Qed.

(** With several empty parameters, the one named depends on the order in
    which the interpreter iterates [locals()]. *)
Example missing_first :
  create insertion_order dialpad_settings "" "Jane" "Doe" "" (directory "") []
    = (Returned "ERROR: Missing an expected input value for username in input file.", []).
Proof. reflexivity. Qed.

Example missing_last :
  create reverse_order dialpad_settings "" "Jane" "Doe" "" (directory "") []
    = (Returned "ERROR: Missing an expected input value for ou in input file.", []).
Proof. reflexivity. Qed.

(** An office with a key is passed on. *)
Example create_admissions :
  create insertion_order dialpad_settings "jdoe" "Jane" "Doe" "Admissions"
         (directory "") []
    = (Returned "SUCCESS: user was created in Dialpad.",
       [Get "/api/v1/admin/user?api_key=&email=jdoe@" (HttpResp 200 "");
        Get "/api/v1/admin/user?api_key=&email=jdoe@&action=add&first_name=Jane&last_name=Doe&office_key=gdfsgds546456bdcbbc"
            (HttpResp 200 "")]).
Proof. reflexivity. Qed.

(** A failed lookup followed by a successful update is reported as success. *)
Example update_after_failed_lookup :
  update insertion_order dialpad_settings "jdoe" "jdoe" "True"
    {| http_get := λ tr _, match tr with [] => HttpExn | _ => HttpResp 200 "" end;
       smtp_send := λ _ _ _ _ _, true |} []
    = (Returned "SUCCESS: user was updated in Dialpad.",
       [Get "/api/v1/admin/user?api_key=&email=jdoe@" HttpExn;
        Get "/api/v1/admin/user?api_key=&email=jdoe@&action=suspend"
            (HttpResp 200 "")]).
Proof. reflexivity. Qed.

(** ** Outcomes of the three actions *)

Lemma first_missing_None_inv (params : list (string * string)) :
  first_missing params = None → Forall (λ p, p.2 ≠ "") params.
Proof.
  induction params as [|[k v] rest IH]; simpl; [by constructor |].
  destruct (String.eqb_spec v ""); [done |].
  intros H. constructor; [done | by apply IH].
Qed.

Lemma validated_inv (py : Python) (params : list (string * string)) :
  first_missing (dict_iter py params) = None → Forall (λ p, p.2 ≠ "") params.
Proof.
  intros H. apply first_missing_None_inv in H. by rewrite dict_iter_perm in H.
Qed.

Lemma missing_msg_no_success (_item : string) :
  is_success (missing_msg _item) = false.
Proof. reflexivity. Qed.

Section Outcomes.

Context (py : Python) (cfg : Settings) (env : Env).

(** Deleting a user the existence check finds: the delete request follows
    the lookup, once; a 200 answer gives the deleted SUCCESS, another status
    the could-not-delete ERROR, an exception the Could-not-delete ERROR. *)
Theorem delete_found (username : string) (tr : list event) :
  username ≠ "" →
  let upn := username +:+ "@" +:+ DOMAIN cfg in
  (findUser cfg upn env tr).1 = Returned true →
  ∃ result,
    let found := Get (user_url cfg upn) (http_get env tr (user_url cfg upn)) in
    let reply := http_get env (tr ++ [found]) (delete_url cfg upn) in
    delete cfg username env tr =
      (Returned result, tr ++ [found; Get (delete_url cfg upn) reply])
    ∧ (∀ body, reply = HttpResp 200 body →
         result = "SUCCESS: user deleted in Dialpad.")
    ∧ (∀ status body, reply = HttpResp status body → status ≠ 200 →
         result = "ERROR: could not delete user in Dialpad.")
    ∧ (reply = HttpExn → result = "ERROR: Could not delete Dialpad user.").
Proof.
  intros Hu upn Hfound. unfold delete.
  apply String.eqb_neq in Hu. rewrite Hu. cbn zeta. fold upn.
  lookup cfg env upn tr found Hrun.
  rewrite Hrun in Hfound. simpl in Hfound. injection Hfound as ->. simpl.
  unfold bind, request; cbn zeta. rewrite <- app_assoc. cbn [app].
  destruct (http_get env (tr ++ _) _) as [|status body].
  - eexists. split; [reflexivity |]. repeat split; done.
  - destruct (Z.eqb_spec status 200) as [-> | Hne]; simpl;
      eexists; (split; [reflexivity |]); repeat split; try done.
    + by intros ? ? [= <- _] ?.
    + by intros ? [= ? _].
Qed.

(** An update whose suspend or reactivate request raises is reported with
    the Could-not-update ERROR; the request is not repeated. *)
Theorem update_call_raises (username loginDisabled : string) (tr : list event) :
  username ≠ "" → loginDisabled ≠ "" →
  let upn := username +:+ "@" +:+ DOMAIN cfg in
  let found := Get (user_url cfg upn) (http_get env tr (user_url cfg upn)) in
  let url :=
    update_url cfg upn
      (if String.eqb loginDisabled "True" then "suspend" else "reactivate") in
  (findUser cfg upn env tr).1 = Returned true →
  http_get env (tr ++ [found]) url = HttpExn →
  update py cfg username username loginDisabled env tr =
    (Returned "ERROR: Could not update Dialpad user.",
     tr ++ [found; Get url HttpExn]).
Proof.
  intros Hu Hl upn found url Hfound Hexn. unfold update. validate. fold upn.
  lookup cfg env upn tr b Hrun.
  rewrite Hrun in Hfound. simpl in Hfound. injection Hfound as ->.
  rewrite String.eqb_refl. simpl.
  unfold bind, request; cbn zeta. rewrite <- app_assoc. cbn [app].
  fold found. fold url. by rewrite Hexn.
Qed.

(** [create] reports SUCCESS exactly when all four fields are non-empty, the
    existence check answers "not found", and the create request is answered
    with status 200. *)
Theorem create_success_iff (username givenName sn ou : string) (tr : list event) :
  let upn := username +:+ "@" +:+ DOMAIN cfg in
  let found := Get (user_url cfg upn) (http_get env tr (user_url cfg upn)) in
  let url := create_url cfg upn givenName sn (office_param cfg ou) in
  (∃ result tr',
     create py cfg username givenName sn ou env tr = (Returned result, tr')
     ∧ is_success result = true)
  ↔ username ≠ "" ∧ givenName ≠ "" ∧ sn ≠ "" ∧ ou ≠ ""
    ∧ (findUser cfg upn env tr).1 = Returned false
    ∧ ∃ body, http_get env (tr ++ [found]) url = HttpResp 200 body.
Proof.
  intros upn found url. unfold create.
  destruct (first_missing _) as [_item|] eqn:Hfirst.
  { split.
    - intros (result & tr' & [= <- _] & Hok).
      by rewrite missing_msg_no_success in Hok.
    - intros (Hu & Hg & Hs & Ho & _).
      rewrite validated in Hfirst by (repeat constructor; done). done. }
  apply validated_inv in Hfirst.
  repeat match goal with H : Forall _ (_ :: _) |- _ =>
           apply Forall_cons in H as [? H] end.
  simpl in *. cbn zeta. fold upn.
  lookup cfg env upn tr b Hrun. fold found in Hrun |- *. simpl.
  destruct b.
  { split; [by intros (? & ? & [= <- _] & ?) | by intros (_ & _ & _ & _ & ? & _)]. }
  unfold bind, request; cbn zeta. fold url.
  destruct (http_get env (tr ++ [found]) url) as [|status body].
  { split; [by intros (? & ? & [= <- _] & ?) |].
    by intros (_ & _ & _ & _ & _ & ? & ?). }
  destruct (Z.eqb_spec status 200) as [-> | Hne]; simpl.
  - split; [by eauto 10 |]. intros _. by eexists _, _.
  - split; [by intros (? & ? & [= <- _] & ?) |].
    intros (_ & _ & _ & _ & _ & ? & [= ? _]). done.
Qed.

(** [update] reports SUCCESS exactly when all three fields are non-empty,
    the existence check answers "found", the new name equals the old one, and
    the suspend or reactivate request is answered with status 200. *)
Theorem update_success_iff
    (username newusername loginDisabled : string) (tr : list event) :
  let upn := username +:+ "@" +:+ DOMAIN cfg in
  let found := Get (user_url cfg upn) (http_get env tr (user_url cfg upn)) in
  let url :=
    update_url cfg upn
      (if String.eqb loginDisabled "True" then "suspend" else "reactivate") in
  (∃ result tr',
     update py cfg username newusername loginDisabled env tr
       = (Returned result, tr')
     ∧ is_success result = true)
  ↔ username ≠ "" ∧ newusername ≠ "" ∧ loginDisabled ≠ ""
    ∧ (findUser cfg upn env tr).1 = Returned true
    ∧ username = newusername
    ∧ ∃ body, http_get env (tr ++ [found]) url = HttpResp 200 body.
Proof.
  intros upn found url. unfold update.
  destruct (first_missing _) as [_item|] eqn:Hfirst.
  { split.
    - intros (result & tr' & [= <- _] & Hok).
      by rewrite missing_msg_no_success in Hok.
    - intros (Hu & Hn & Hl & _).
      rewrite validated in Hfirst by (repeat constructor; done). done. }
  apply validated_inv in Hfirst.
  repeat match goal with H : Forall _ (_ :: _) |- _ =>
           apply Forall_cons in H as [? H] end.
  simpl in *. cbn zeta. fold upn.
  lookup cfg env upn tr b Hrun. fold found in Hrun |- *. simpl.
  destruct b; simpl.
  2: { split; [by intros (? & ? & [= <- _] & ?) | by intros (_ & _ & _ & ? & _)]. }
  destruct (String.eqb_spec username newusername) as [Heq | Hne]; simpl.
  2: { unfold sendMail, bind, smtp; cbn zeta.
       split; [by intros (? & ? & [= <- _] & ?) | by intros (_ & _ & _ & _ & ? & _)]. }
  unfold bind, request; cbn zeta. fold url.
  destruct (http_get env (tr ++ [found]) url) as [|status body].
  { split; [by intros (? & ? & [= <- _] & ?) |].
    by intros (_ & _ & _ & _ & _ & ? & ?). }
  destruct (Z.eqb_spec status 200) as [-> | Hne]; simpl.
  - split; [by eauto 10 |]. intros _. by eexists _, _.
  - split; [by intros (? & ? & [= <- _] & ?) |].
    intros (_ & _ & _ & _ & _ & ? & [= ? _]). done.
Qed.

(** [delete] reports SUCCESS exactly when the username is non-empty, the
    existence check answers "found", and the delete request is answered with
    status 200. *)
Theorem delete_success_iff (username : string) (tr : list event) :
  let upn := username +:+ "@" +:+ DOMAIN cfg in
  let found := Get (user_url cfg upn) (http_get env tr (user_url cfg upn)) in
  (∃ result tr',
     delete cfg username env tr = (Returned result, tr')
     ∧ is_success result = true)
  ↔ username ≠ ""
    ∧ (findUser cfg upn env tr).1 = Returned true
    ∧ ∃ body,
        http_get env (tr ++ [found]) (delete_url cfg upn) = HttpResp 200 body.
Proof.
  intros upn found. unfold delete.
  destruct (String.eqb_spec username "") as [-> | Hu].
  { split; [by intros (? & ? & [= <- _] & ?) | by intros (? & _)]. }
  cbn zeta. fold upn.
  lookup cfg env upn tr b Hrun. fold found in Hrun |- *. simpl.
  destruct b; simpl.
  2: { split; [by intros (? & ? & [= <- _] & ?) | by intros (_ & ? & _)]. }
  unfold bind, request; cbn zeta.
  destruct (http_get env (tr ++ [found]) (delete_url cfg upn)) as [|status body].
  { split; [by intros (? & ? & [= <- _] & ?) | by intros (_ & _ & ? & ?)]. }
  destruct (Z.eqb_spec status 200) as [-> | Hne]; simpl.
  - split; [by eauto 10 |]. intros _. by eexists _, _.
  - split; [by intros (? & ? & [= <- _] & ?) |].
    intros (_ & _ & ? & [= ? _]). done.
Qed.

End Outcomes.

(** ** What one record may send *)

Section Traffic.

Context (py : Python) (cfg : Settings) (env : Env).

(** Whatever its arguments and whatever the answers, an action returns, and
    what it sent is one of: nothing; the lookup alone; the lookup followed by
    exactly one request of the action (for an update: or by exactly one mail,
    never both). No request is repeated, [create] and [delete] send no mail,
    and nothing is written to the report. *)
Theorem traffic_per_action (tr : list event) :
  (∀ username givenName sn ou,
     let upn := username +:+ "@" +:+ DOMAIN cfg in
     ∃ result evs,
       create py cfg username givenName sn ou env tr = (Returned result, tr ++ evs)
       ∧ (evs = []
          ∨ (∃ r, evs = [Get (user_url cfg upn) r])
          ∨ (∃ r r', evs = [Get (user_url cfg upn) r;
                            Get (create_url cfg upn givenName sn
                                   (office_param cfg ou)) r'])))
  ∧ (∀ username newusername loginDisabled,
       let upn := username +:+ "@" +:+ DOMAIN cfg in
       ∃ result evs,
         update py cfg username newusername loginDisabled env tr
           = (Returned result, tr ++ evs)
         ∧ (evs = []
            ∨ (∃ r, evs = [Get (user_url cfg upn) r])
            ∨ (∃ r message sent,
                 evs = [Get (user_url cfg upn) r;
                        Mail (MAILSERVER cfg) (FROM cfg) (TO cfg) message sent])
            ∨ (∃ r r', evs = [Get (user_url cfg upn) r;
                              Get (update_url cfg upn "suspend") r'])
            ∨ (∃ r r', evs = [Get (user_url cfg upn) r;
                              Get (update_url cfg upn "reactivate") r'])))
  ∧ (∀ username,
       let upn := username +:+ "@" +:+ DOMAIN cfg in
       ∃ result evs,
         delete cfg username env tr = (Returned result, tr ++ evs)
         ∧ (evs = []
            ∨ (∃ r, evs = [Get (user_url cfg upn) r])
            ∨ (∃ r r', evs = [Get (user_url cfg upn) r;
                              Get (delete_url cfg upn) r']))).
Proof.
  split; [| split].
  - intros username givenName sn ou upn. unfold create.
    destruct (first_missing _) as [_item|].
    { eexists _, []. rewrite app_nil_r. split; [reflexivity | by left]. }
    cbn zeta. fold upn. lookup cfg env upn tr b Hrun. clear Hrun.
    generalize (http_get env tr (user_url cfg upn)). intros r.
    destruct b; simpl.
    { eexists _, [_]. split; [reflexivity |]. right. left. by eexists. }
    unfold bind, request; cbn zeta. rewrite <- app_assoc. cbn [app].
    destruct (http_get env (tr ++ _) _) as [|status body];
      [| destruct (negb (status =? 200))];
      eexists _, [_; _]; (split; [reflexivity |]); right; right; by eexists _, _.
  - intros username newusername loginDisabled upn. unfold update.
    destruct (first_missing _) as [_item|].
    { eexists _, []. rewrite app_nil_r. split; [reflexivity | by left]. }
    cbn zeta. fold upn. lookup cfg env upn tr b Hrun. clear Hrun.
    generalize (http_get env tr (user_url cfg upn)). intros r.
    destruct b; simpl.
    2: { eexists _, [_]. split; [reflexivity |]. right. left. by eexists. }
    destruct (String.eqb username newusername); simpl.
    + unfold bind, request; cbn zeta. rewrite <- app_assoc. cbn [app].
      destruct (String.eqb loginDisabled "True");
        (destruct (http_get env (tr ++ _) _) as [|status body];
           [| destruct (negb (status =? 200))]);
        eexists _, [_; _]; (split; [reflexivity |]); right; right; right.
      1-3: left; by eexists _, _.
      all: right; by eexists _, _.
    + unfold sendMail, bind, smtp; cbn zeta. rewrite <- app_assoc. cbn [app].
      eexists _, [_; _]. split; [reflexivity |].
      right. right. left. by eexists _, _, _.
  - intros username upn. unfold delete.
    destruct (String.eqb username "").
    { eexists _, []. rewrite app_nil_r. split; [reflexivity | by left]. }
    cbn zeta. fold upn. lookup cfg env upn tr b Hrun. clear Hrun.
    generalize (http_get env tr (user_url cfg upn)). intros r.
    destruct b; simpl.
    2: { eexists _, [_]. split; [reflexivity |]. right. left. by eexists. }
    unfold bind, request; cbn zeta. rewrite <- app_assoc. cbn [app].
    destruct (http_get env (tr ++ _) _) as [|status body];
      [| destruct (negb (status =? 200))];
      eexists _, [_; _]; (split; [reflexivity |]); right; right; by eexists _, _.
Qed.

End Traffic.

(** ** Rows the loop cannot process *)

Lemma bind_raise {A B} (c : M A) (k : A → M B) env tr e tr' :
  c env tr = (Raised e, tr') → bind c k env tr = (Raised e, tr').
Proof. intros Hc. unfold bind. by rewrite Hc. Qed.

Lemma read_raise row key env tr :
  field row key = None →
  ∃ e, (v <- getitem row key ;; str v) env tr = (Raised e, tr).
Proof.
  unfold field, bind, getitem, str.
  destruct (row !! key) as [v|]; simpl; [| by eexists].
  intros ->. by eexists.
Qed.

(** [str(u)] gives back the text of [u]: a unicode object with an ASCII
    encoding is the decoding of that encoding. *)
Lemma encode_decode (u : unicode) (s : string) :
  encode u = Some s → u = decode s.
Proof.
  revert s. induction u as [|c u IH]; intros s; simpl.
  - by intros [= <-].
  - destruct (N.ltb_spec c 128) as [Hc |]; [| done].
    destruct (encode u) as [s'|]; [| done]. simpl. intros [= <-].
    unfold decode, chars. cbn [String.list_ascii_of_string fmap list_fmap].
    f_equal; [| by apply IH].
    symmetry. apply N_ascii_embedding. lia.
Qed.

Lemma unicode_eq_encode (u : unicode) (lit a : string) :
  encode (decode lit) = Some lit →
  encode u = Some a → unicode_eq u lit = bool_decide (a = lit).
Proof.
  intros Hlit Ha. unfold unicode_eq.
  apply bool_decide_ext. split.
  - intros ->. congruence.
  - intros <-. by apply encode_decode.
Qed.

Lemma unicode_eq_non_ascii (u : unicode) (lit : string) :
  encode (decode lit) = Some lit → encode u = None → unicode_eq u lit = false.
Proof.
  intros Hlit Hu. unfold unicode_eq. apply bool_decide_eq_false.
  intros ->. congruence.
Qed.

Section Malformed.

Context (py : Python) (cfg : Settings) (env : Env).

Ltac raise_here tr :=
  match goal with
  | H : field _ _ = None |- _ =>
      destruct (read_raise _ _ env tr H) as [? Hraise];
      rewrite (bind_raise _ _ _ _ _ _ Hraise);
      by eexists
  end.

Ltac read_next tr key :=
  let s := fresh "s" in
  let H := fresh "H" in
  destruct (field _ key) as [s|] eqn:H;
  [ rewrite (bind_run _ _ _ _ _ _ (read_run _ _ _ env tr H))
  | raise_here tr ].

(** A row that is not well formed makes the dispatch, or the reading of the
    cells to write, raise before anything is sent. *)
Lemma malformed_raises (row : gmap string unicode) (tr : list event) :
  well_formed row = false →
  ∃ e, main_step py cfg row env tr = (Raised e, tr).
Proof.
  unfold well_formed, main_step. unfold bind at 1. unfold main_dispatch.
  destruct (row !! "action") as [a|] eqn:Ha.
  2: { intros _. unfold bind, getitem. rewrite Ha. by eexists. }
  rewrite (bind_run _ _ _ _ _ _ (getitem_run _ _ _ env tr Ha)).
  destruct (encode a) as [a'|] eqn:Ha'.
  2: { intros _.
       rewrite !unicode_eq_non_ascii by done.
       unfold format_arg, bind, str. rewrite Ha'. by eexists. }
  rewrite bool_decide_eq_true_2 by by eexists. cbn [andb].
  unfold fields_read.
  destruct (unicode_eq a "create").
  { cbn [forallb]. intros Hkeys.
    read_next tr "username". read_next tr "givenName". read_next tr "sn".
    read_next tr "primO".
    by rewrite !bool_decide_eq_true_2 in Hkeys by by eexists. }
  destruct (unicode_eq a "update").
  { cbn [forallb]. intros Hkeys.
    read_next tr "username". read_next tr "newusername". read_next tr "loginDisabled".
    by rewrite !bool_decide_eq_true_2 in Hkeys by by eexists. }
  cbn [forallb]. intros Hkeys.
  destruct (field row "username") as [u|] eqn:Hu.
  { by rewrite !bool_decide_eq_true_2 in Hkeys by by eexists. }
  destruct (unicode_eq a "delete").
  { raise_here tr. }
  unfold format_arg.
  rewrite (bind_run _ _ _ _ _ _
             (bind_run _ _ _ _ _ _ (str_run _ _ env tr Ha'))).
  unfold ret at 1.
  rewrite (bind_run _ _ _ _ _ _ (getitem_run _ _ _ env tr Ha)).
  unfold field in Hu. unfold bind, getitem, str.
  destruct (row !! "username") as [v|]; simpl in Hu |- *; [| by eexists].
  rewrite Ha', Hu. by eexists.
Qed.

End Malformed.

(** ** The loop on arbitrary batches *)

Lemma try_bind_run {A B} (c : M A) (k : A → M B) h env tr a tr' :
  c env tr = (Returned a, tr') →
  try_except (bind c k) h env tr = try_except (k a) h env tr'.
Proof. intros Hc. unfold try_except, bind. by rewrite Hc. Qed.

Lemma try_bind_raise {A B} (c : M A) (k : A → M B) h env tr e tr' :
  c env tr = (Raised e, tr') →
  try_except (bind c k) h env tr = h e env tr'.
Proof. intros Hc. unfold try_except, bind. by rewrite Hc. Qed.

Section Truncation.

Context (py : Python) (cfg : Settings) (env : Env).

(** A row whose action is ASCII text other than [create], [update] and
    [delete], and whose username is ASCII text, is reported with the
    unrecognized-action error; nothing is requested and no mail is sent. *)
Theorem unrecognized_action
    (row : gmap string unicode) (a u : string) (tr : list event) :
  field row "action" = Some a → field row "username" = Some u →
  a ≠ "create" → a ≠ "update" → a ≠ "delete" →
  main_step py cfg row env tr =
    (Returned (), tr ++ [Row [a; u; "ERROR: Unrecognized action."]]).
Proof.
  intros Ha Hu Hc Hup Hd. unfold field in Ha, Hu.
  destruct (row !! "action") as [va|] eqn:Hva; [| done].
  destruct (row !! "username") as [vu|] eqn:Hvu; [| done].
  simpl in Ha, Hu.
  unfold main_step. unfold bind at 1. unfold main_dispatch.
  rewrite (bind_run _ _ _ _ _ _ (getitem_run _ _ _ env tr Hva)).
  rewrite !(unicode_eq_encode va _ a) by done.
  rewrite !bool_decide_eq_false_2 by done.
  unfold format_arg.
  rewrite (bind_run _ _ _ _ _ _
             (bind_run _ _ _ _ _ _ (str_run _ _ env tr Ha))).
  unfold ret at 1.
  rewrite (bind_run _ _ _ _ _ _ (getitem_run _ _ _ env tr Hva)).
  rewrite (bind_run _ _ _ _ _ _ (getitem_run _ _ _ env tr Hvu)).
  rewrite (bind_run _ _ _ _ _ _ (str_run _ _ env tr Ha)).
  by rewrite (bind_run _ _ _ _ _ _ (str_run _ _ env tr Hu)).
Qed.

(** For a row whose fields are JSON strings, as all rows of this file are:
    one turn of the loop raises exactly when a field the loop reads for the
    row's action is absent or is a string with a character outside ASCII.
    When it raises, nothing was requested, mailed or written for the row. *)
Theorem row_raises_iff (row : gmap string unicode) (tr : list event) :
  ((∃ e tr', main_step py cfg row env tr = (Raised e, tr'))
   ↔ well_formed row = false)
  ∧ (∀ e tr', main_step py cfg row env tr = (Raised e, tr') → tr' = tr).
Proof.
  destruct (well_formed row) eqn:Hwf.
  - destruct (main_step_run py cfg env row tr Hwf)
      as (a & u & result & evs & _ & _ & _ & _ & _ & Hstep).
    rewrite Hstep. split; [| done].
    split; [by intros (e & tr' & ?) | done].
  - destruct (malformed_raises py cfg env row tr Hwf) as [e He].
    rewrite He. split; [| by intros ? ? [= _ <-]].
    split; [done | intros _; by eexists _, _].
Qed.

Lemma loop_truncates (batch : list (gmap string unicode)) (tr : list event) :
  try_except (for_each batch (main_step py cfg)) (λ _, ret ()) env tr
  = try_except (for_each (well_formed_prefix batch) (main_step py cfg))
               (λ _, ret ()) env tr.
Proof.
  revert tr. induction batch as [|row batch IH]; intros tr; [done |].
  cbn [well_formed_prefix for_each].
  destruct (well_formed row) eqn:Hwf.
  - destruct (main_step_run py cfg env row tr Hwf)
      as (a & u & result & evs & _ & _ & _ & _ & _ & Hstep).
    cbn [for_each]. rewrite !(try_bind_run _ _ _ _ _ _ _ Hstep). apply IH.
  - destruct (malformed_raises py cfg env row tr Hwf) as [e He].
    by rewrite (try_bind_raise _ _ _ _ _ _ _ He).
Qed.

(** For a batch of rows whose fields are JSON strings, as all rows of this
    file are: [main] returns, and does exactly what it does on the rows
    before the first one in which a field the loop reads is absent or is a
    string with a character outside ASCII. That row and every row after it
    get no request, no mail and no line in the report. *)
Theorem main_truncates (batch : list (gmap string unicode)) (tr : list event) :
  main py cfg batch env tr = main py cfg (well_formed_prefix batch) env tr
  ∧ (main py cfg batch env tr).1 = Returned ().
Proof.
  assert (Heq : main py cfg batch env tr
                = main py cfg (well_formed_prefix batch) env tr).
  { unfold main.
    assert (Hhead : writerow header env tr = (Returned (), tr ++ [Row header]))
      by done.
    rewrite !(try_bind_run _ _ _ _ _ _ _ Hhead). apply loop_truncates. }
  split; [done |]. rewrite Heq.
  assert (Forall (λ row, well_formed row = true) (well_formed_prefix batch))
    as Hgood.
  { clear. induction batch as [|row batch IH]; simpl; [constructor |].
    destruct (well_formed row) eqn:E; by constructor. }
  destruct (main_loop_run py cfg env _ (tr ++ [Row header]) Hgood)
    as (tr' & results & Hloop & _).
  unfold main, try_except, writerow, emit. unfold bind at 1. by rewrite Hloop.
Qed.

End Truncation.

(** ** Records do not influence each other *)

Section Frame.

Context (env : Env) (Hfree : history_free env).

Lemma framed_ret {A} (a : A) : framed env (ret a).
Proof. intros tr. unfold ret. simpl. by rewrite app_nil_r. Qed.

Lemma framed_raise {A} (e : exn) : framed env (raise (A := A) e).
Proof. intros tr. unfold raise. simpl. by rewrite app_nil_r. Qed.

Lemma framed_emit (e : event) : framed env (emit e).
Proof. by intros tr. Qed.

Lemma framed_request (url : string) : framed env (request url).
Proof.
  intros tr. unfold request. cbn zeta. simpl.
  by rewrite (proj1 Hfree tr).
Qed.

Lemma framed_smtp (server frm to message : string) :
  framed env (smtp server frm to message).
Proof.
  intros tr. unfold smtp. cbn zeta. simpl.
  by rewrite (proj2 Hfree tr).
Qed.

Lemma framed_bind {A B} (c : M A) (k : A → M B) :
  framed env c → (∀ a, framed env (k a)) → framed env (bind c k).
Proof.
  intros Hc Hk tr. unfold bind. rewrite (Hc tr).
  destruct (c env []) as [[a | e] evs]; simpl.
  - rewrite (Hk a (tr ++ evs)), (Hk a evs). simpl. by rewrite app_assoc.
  - done.
Qed.

Lemma framed_getitem row key : framed env (getitem row key).
Proof.
  unfold getitem. destruct (row !! key); [apply framed_ret | apply framed_raise].
Qed.

Lemma framed_str v : framed env (str v).
Proof.
  unfold str. destruct (encode v); [apply framed_ret | apply framed_raise].
Qed.

Ltac framed_step :=
  first
    [ apply framed_ret | apply framed_raise | apply framed_emit
    | apply framed_request | apply framed_smtp
    | apply framed_getitem | apply framed_str
    | apply framed_bind; [| intros ?] ].

Ltac framed_cases :=
  repeat first
    [ framed_step
    | match goal with
      | |- framed _ (match ?x with _ => _ end) => destruct x
      | |- framed _ (if ?b then _ else _) => destruct b
      end ].

Context (py : Python) (cfg : Settings).

Lemma framed_findUser upn : framed env (findUser cfg upn).
Proof. unfold findUser. framed_cases. Qed.

Lemma framed_create username givenName sn ou :
  framed env (create py cfg username givenName sn ou).
Proof.
  unfold create. destruct (first_missing _); [apply framed_ret |]. cbn zeta.
  apply framed_bind; [apply framed_findUser | intros found]. framed_cases.
Qed.

Lemma framed_update username newusername loginDisabled :
  framed env (update py cfg username newusername loginDisabled).
Proof.
  unfold update. destruct (first_missing _); [apply framed_ret |]. cbn zeta.
  apply framed_bind; [apply framed_findUser | intros found].
  unfold sendMail. framed_cases.
Qed.

Lemma framed_delete username : framed env (delete cfg username).
Proof.
  unfold delete. destruct (String.eqb username ""); [apply framed_ret |].
  cbn zeta.
  apply framed_bind; [apply framed_findUser | intros found]. framed_cases.
Qed.

Lemma framed_dispatch row : framed env (main_dispatch py cfg row).
Proof.
  unfold main_dispatch, format_arg.
  repeat first
    [ apply framed_create | apply framed_update | apply framed_delete
    | framed_step
    | match goal with
      | |- framed _ (if ?b then _ else _) => destruct b
      end ].
Qed.

(** With a directory and a relay whose answers do not depend on what came
    before, the report of a batch of well-formed rows is the header followed,
    record by record and in order, by the row each record gets when processed
    alone. *)
Theorem report_is_map (batch : list (gmap string unicode)) (tr : list event) :
  Forall (λ row, well_formed row = true) batch →
  report (main py cfg batch env tr).2
  = report tr ++
      header ::
        map (λ row, [default "" (field row "action");
                     default "" (field row "username");
                     result_alone py cfg env row])
            batch.
Proof.
  intros Hbatch.
  assert (Hloop : ∀ tr0,
    ∃ tr', for_each batch (main_step py cfg) env tr0 = (Returned (), tr')
      ∧ report tr' = report tr0 ++
          map (λ row, [default "" (field row "action");
                       default "" (field row "username");
                       result_alone py cfg env row]) batch).
  { induction Hbatch as [|row batch Hrow _ IH]; intros tr0.
    - exists tr0. simpl. by rewrite app_nil_r.
    - destruct (main_step_run py cfg env row tr0 Hrow)
        as (a & u & result & evs & Ha & Hu & Hrun & Hrows & _ & Hstep).
      destruct (IH (tr0 ++ evs ++ [Row [a; u; result]])) as (tr' & Hrest & Hrep).
      exists tr'. cbn [for_each].
      rewrite (bind_run _ _ _ _ _ _ Hstep). split; [done |].
      rewrite Hrep, !report_app, Hrows. cbn [map].
      rewrite Ha, Hu. unfold result_alone.
      rewrite (framed_dispatch row tr0) in Hrun.
      injection Hrun as Hres _. rewrite Hres. simpl.
      by rewrite <- app_assoc. }
  destruct (Hloop (tr ++ [Row header])) as (tr' & Hrun & Hrep).
  unfold main, try_except, writerow, emit. unfold bind at 1. rewrite Hrun.
  simpl. rewrite Hrep, report_app. simpl. by rewrite <- app_assoc.
Qed.

End Frame.

(** ** Reading the settings *)

Lemma length_app (s t : string) :
  String.length (s +:+ t) = (String.length s + String.length t)%nat.
Proof. induction s as [|c s IH]; simpl; [done | by rewrite IH]. Qed.

Lemma substring_all (s : string) (n : nat) :
  (String.length s ≤ n)%nat → String.substring 0 n s = s.
Proof.
  revert n. induction s as [|c s IH]; intros [|n] Hn; simpl in *;
    try done; try lia.
  f_equal. apply IH. lia.
Qed.

Lemma substring_app_l (s t : string) :
  String.substring 0 (String.length s) (s +:+ t) = s.
Proof. induction s as [|c s IH]; simpl; [by destruct t | by rewrite IH]. Qed.

Lemma substring_app_r (s t : string) (m : nat) :
  String.substring (String.length s) m (s +:+ t) = String.substring 0 m t.
Proof. induction s as [|c s IH]; simpl; [done | apply IH]. Qed.

(** [s[:n] + s[n:n+m]] is [s] when [n + m] reaches the end of [s]. *)
Lemma substring_split (s : string) (n m : nat) :
  (String.length s ≤ n + m)%nat →
  String.substring 0 n s +:+ String.substring n m s = s.
Proof.
  revert n. induction s as [|c s IH]; intros n Hn.
  - destruct n, m; done.
  - destruct n as [|n].
    + simpl in Hn. rewrite (substring_all (String c s) m) by (simpl; lia).
      by destruct m.
    + cbn [String.substring].
      change (String c (String.substring 0 n s +:+ String.substring n m s)
              = String c s).
      f_equal. apply IH. simpl in Hn. lia.
Qed.

Section Settings.

Context {V : Type}.

(** The module name: a file name ending in [.py] loses exactly that ending
    (so [".py"] itself gives the empty name), and any other name, also one
    shorter than three characters, is taken as it is. *)
Theorem module_name_spec :
  (∀ base, module_name (base +:+ ".py") = base)
  ∧ (∀ config_file,
       (∀ base, config_file ≠ base +:+ ".py") →
       module_name config_file = config_file).
Proof.
  split.
  - intros base. unfold module_name, last3, drop_last3.
    rewrite length_app. simpl String.length.
    replace (String.length base + 3 - 3)%nat with (String.length base) by lia.
    rewrite substring_app_r, substring_app_l. simpl. done.
  - intros config_file Hno. unfold module_name.
    destruct (String.eqb_spec (last3 config_file) ".py") as [Hlast |]; [| done].
    exfalso. apply (Hno (drop_last3 config_file)).
    rewrite <- Hlast. unfold drop_last3, last3.
    symmetry. apply substring_split. lia.
Qed.

Lemma assign_globals_spec
    (names : list string) (dialpadsettings globals : gmap string V) :
  match assign_globals names dialpadsettings globals with
  | (true, globals') =>
      Forall (λ name, is_Some (dialpadsettings !! name)) names
      ∧ ∀ name, globals' !! name =
                if decide (name ∈ names) then dialpadsettings !! name
                else globals !! name
  | (false, globals') =>
      ∃ assigned missing rest,
        names = assigned ++ missing :: rest
        ∧ Forall (λ name, is_Some (dialpadsettings !! name)) assigned
        ∧ dialpadsettings !! missing = None
        ∧ ∀ name, globals' !! name =
                  if decide (name ∈ assigned) then dialpadsettings !! name
                  else globals !! name
  end.
Proof.
  revert globals.
  induction names as [|n names IH]; intros globals; cbn [assign_globals].
  - split; [constructor |]. intros name. by rewrite decide_False by set_solver.
  - destruct (dialpadsettings !! n) as [v|] eqn:Hn.
    + specialize (IH (<[n := v]> globals)).
      destruct (assign_globals names dialpadsettings (<[n := v]> globals))
        as [[|] globals'].
      * destruct IH as [Hall Hlook]. split; [constructor; [by eexists | done] |].
        intros name. rewrite Hlook.
        destruct (decide (name ∈ names)) as [Hin | Hnin].
        -- by rewrite decide_True by set_solver.
        -- destruct (decide (name = n)) as [-> | Hne].
           ++ rewrite decide_True by set_solver. by rewrite lookup_insert_eq.
           ++ rewrite decide_False by (intros [? | ?]%elem_of_cons; done).
              by rewrite lookup_insert_ne.
      * destruct IH as (assigned & missing & rest & -> & Hall & Hmiss & Hlook).
        exists (n :: assigned), missing, rest.
        split; [done |]. split; [constructor; [by eexists | done] |].
        split; [done |]. intros name. rewrite Hlook.
        destruct (decide (name ∈ assigned)) as [Hin | Hnin].
        -- by rewrite decide_True by set_solver.
        -- destruct (decide (name = n)) as [-> | Hne].
           ++ rewrite decide_True by set_solver. by rewrite lookup_insert_eq.
           ++ rewrite decide_False by (intros [? | ?]%elem_of_cons; done).
              by rewrite lookup_insert_ne.
    + exists [], n, names. split; [done |]. split; [constructor |].
      split; [done |]. intros name. by rewrite decide_False by set_solver.
Qed.

(** When the module can be imported, [readConfig] returns; it returns [True]
    exactly when the module binds all six setting names, and then each of the
    six globals holds the module's object and every other global is
    untouched. *)
Theorem readConfig_true_iff
    (import_module : string → option (gmap string V))
    (config_file : string) (globals dialpadsettings : gmap string V) :
  import_module (module_name config_file) = Some dialpadsettings →
  ∃ flag globals',
    readConfig import_module config_file globals = Some (flag, globals')
    ∧ (flag = true ↔
         ∀ name, name ∈ setting_names → is_Some (dialpadsettings !! name))
    ∧ (flag = true →
         ∀ name, globals' !! name =
                 if decide (name ∈ setting_names) then dialpadsettings !! name
                 else globals !! name).
Proof.
  intros Himport. unfold readConfig. rewrite Himport.
  pose proof (assign_globals_spec setting_names dialpadsettings globals) as Hspec.
  destruct (assign_globals setting_names dialpadsettings globals)
    as [[|] globals'].
  - destruct Hspec as [Hall Hlook]. exists true, globals'.
    split; [done |]. split; [| done].
    split; [| done]. intros _. by apply Forall_forall.
  - destruct Hspec as (assigned & missing & rest & Hnames & _ & Hmiss & _).
    exists false, globals'. split; [done |]. split; [| done].
    split; [done |]. intros Hall.
    destruct (Hall missing) as [v Hv]; [rewrite Hnames; set_solver |].
    congruence.
Qed.

(** When [readConfig] returns [False], the settings that come before the
    first name the module does not bind have already replaced the globals;
    that name and the ones after it are left as they were. *)
Theorem readConfig_false_partial
    (import_module : string → option (gmap string V))
    (config_file : string) (globals globals' dialpadsettings : gmap string V) :
  import_module (module_name config_file) = Some dialpadsettings →
  readConfig import_module config_file globals = Some (false, globals') →
  ∃ assigned missing rest,
    setting_names = assigned ++ missing :: rest
    ∧ (∀ name, name ∈ assigned → is_Some (dialpadsettings !! name))
    ∧ dialpadsettings !! missing = None
    ∧ ∀ name, globals' !! name =
              if decide (name ∈ assigned) then dialpadsettings !! name
              else globals !! name.
Proof.
  intros Himport. unfold readConfig. rewrite Himport.
  pose proof (assign_globals_spec setting_names dialpadsettings globals) as Hspec.
  destruct (assign_globals setting_names dialpadsettings globals)
    as [[|] globals0]; intros [= <-].
  destruct Hspec as (assigned & missing & rest & Hnames & Hall & Hmiss & Hlook).
  exists assigned, missing, rest. split; [done |].
  split; [by apply Forall_forall |]. done.
Qed.

End Settings.

(** ** The two files *)

Section Release.

Context (py : Python) (cfg : Settings) (env : Env).

Lemma main_trace (batch : list (gmap string unicode)) (tr : list event) :
  (main py cfg batch env tr).2
  = ((writerow header ;;; for_each batch (main_step py cfg)) env tr).2.
Proof.
  unfold main, try_except.
  by destruct ((writerow header ;;; for_each batch (main_step py cfg)) env tr)
    as [[[] | e] tr'].
Qed.

(** When both files can be opened, [main] ends without an exception and each
    file is closed exactly once, input first, whatever the document holds and
    however the loop ends: a document that does not parse leaves the trace as
    it was, one without the list gives what the empty batch gives, and a
    batch gives what the loop gives. *)
Theorem files_closed_once (disk : Disk) (tr : list event) :
  readable disk = true → writable disk = true →
  ∃ tr',
    main_files py cfg disk env tr
      = (None, [Open "f_in"; Open "f_out"; Close "f_in"; Close "f_out"], tr')
    ∧ (document disk = None → tr' = tr)
    ∧ (document disk = Some None → tr' = (main py cfg [] env tr).2)
    ∧ (∀ useractions, document disk = Some (Some useractions) →
         tr' = (main py cfg useractions env tr).2).
Proof.
  intros Hr Hw. unfold main_files, try_block. rewrite Hr, Hw. cbn zeta. simpl.
  destruct (document disk) as [[useractions |] |]; eexists;
    (split; [reflexivity |]); repeat split; try done.
  intros ? [= <-]. by rewrite main_trace.
Qed.

(** When a file cannot be opened, the [finally] block reads a variable that
    was never assigned and [UnboundLocalError] leaves [main]: for the input
    file nothing was opened or closed; for the output file the input file was
    opened and is closed. In both cases nothing is requested or written. *)
Theorem unopened_file_faults (disk : Disk) (tr : list event) :
  (readable disk = false →
     main_files py cfg disk env tr = (Some (UnboundLocalError "f_in"), [], tr))
  ∧ (readable disk = true → writable disk = false →
       main_files py cfg disk env tr
         = (Some (UnboundLocalError "f_out"),
            [Open "f_in"; Close "f_in"], tr))
  ∧ ((main_files py cfg disk env tr).1.1 = None
     ↔ readable disk = true ∧ writable disk = true).
Proof.
  unfold main_files, try_block.
  destruct (readable disk), (writable disk); simpl;
    try (destruct (document disk) as [[?|]|]); simpl;
    repeat split; try done; by intros [? ?].
Qed.

End Release.

(** ** The further properties at work on sample inputs *)

Lemma delete_found_witness :
  delete dialpad_settings "jdoe" (directory "jdoe@") []
    = (Returned "SUCCESS: user deleted in Dialpad.",
       [Get "/api/v1/admin/user?api_key=&email=jdoe@" (HttpResp 200 "jdoe@");
        Get "/api/v1/admin/user?api_key=&email=jdoe@&action=delete"
            (HttpResp 200 "jdoe@")]).
Proof.
  destruct (delete_found dialpad_settings (directory "jdoe@") "jdoe" [])
    as (result & Hrun & Hok & _); [done.. |].
  rewrite Hrun. by rewrite (Hok "jdoe@" eq_refl).
Defined.

Lemma update_call_raises_witness :
  update insertion_order dialpad_settings "jdoe" "jdoe" "True"
    {| http_get := λ tr _,
         match tr with [] => HttpResp 200 "jdoe@" | _ => HttpExn end;
       smtp_send := λ _ _ _ _ _, true |} []
    = (Returned "ERROR: Could not update Dialpad user.",
       [Get "/api/v1/admin/user?api_key=&email=jdoe@" (HttpResp 200 "jdoe@");
        Get "/api/v1/admin/user?api_key=&email=jdoe@&action=suspend" HttpExn]).
Proof.
  by apply (update_call_raises insertion_order dialpad_settings
              {| http_get := λ tr _,
                   match tr with [] => HttpResp 200 "jdoe@" | _ => HttpExn end;
                 smtp_send := λ _ _ _ _ _, true |}
              "jdoe" "True" []).
Defined.

Lemma unrecognized_action_witness :
  main_step insertion_order dialpad_settings
            (record [("action", "zap"); ("username", "q")]) unreachable []
    = (Returned (), [Row ["zap"; "q"; "ERROR: Unrecognized action."]]).
Proof.
  by apply (unrecognized_action insertion_order dialpad_settings unreachable
              (record [("action", "zap"); ("username", "q")]) "zap" "q" []).
Defined.

Lemma directory_history_free (body : string) : history_free (directory body).
Proof. by split. Defined.

Lemma report_is_map_witness :
  report (main insertion_order dialpad_settings
               [testuserj; record [("action", "zap"); ("username", "q")]]
               (directory "") []).2
  = [header;
     ["create"; "testuserj"; "SUCCESS: user was created in Dialpad."];
     ["zap"; "q"; "ERROR: Unrecognized action."]].
Proof.
  rewrite (report_is_map (directory "") (directory_history_free "")
             insertion_order dialpad_settings) by (by repeat constructor).
  reflexivity.
Defined.

Lemma readConfig_true_witness :
  ∃ flag globals',
    readConfig
      (λ name, if String.eqb name "dialpad_settings"
               then Some (list_to_map ((λ n, (n, n)) <$> setting_names))
               else None)
      "dialpad_settings.py" (∅ : gmap string string) = Some (flag, globals')
    ∧ (flag = true ↔
         ∀ name, name ∈ setting_names →
                 is_Some ((list_to_map ((λ n, (n, n)) <$> setting_names)
                             : gmap string string) !! name))
    ∧ (flag = true →
         ∀ name, globals' !! name =
                 if decide (name ∈ setting_names)
                 then (list_to_map ((λ n, (n, n)) <$> setting_names)
                         : gmap string string) !! name
                 else (∅ : gmap string string) !! name).
Proof.
  by apply (readConfig_true_iff
              (λ name, if String.eqb name "dialpad_settings"
                       then Some (list_to_map ((λ n, (n, n)) <$> setting_names))
                       else None)
              "dialpad_settings.py" ∅).
Defined.

(** A settings module that stops after [FROM]: the first three globals are
    already replaced when [readConfig] returns [False]. *)
Lemma readConfig_false_witness :
  ∃ assigned missing rest,
    setting_names = assigned ++ missing :: rest
    ∧ (∀ name, name ∈ assigned →
         is_Some ((list_to_map [("CLIENT_KEY", "k"); ("DOMAIN", "d");
                                ("FROM", "f")] : gmap string string) !! name))
    ∧ (list_to_map [("CLIENT_KEY", "k"); ("DOMAIN", "d"); ("FROM", "f")]
         : gmap string string) !! missing = None
    ∧ ∀ name,
        (<["FROM" := "f"]> (<["DOMAIN" := "d"]> (<["CLIENT_KEY" := "k"]> ∅))
           : gmap string string) !! name
        = if decide (name ∈ assigned)
          then (list_to_map [("CLIENT_KEY", "k"); ("DOMAIN", "d");
                             ("FROM", "f")] : gmap string string) !! name
          else (∅ : gmap string string) !! name.
Proof.
  by apply (readConfig_false_partial
              (λ _, Some (list_to_map [("CLIENT_KEY", "k"); ("DOMAIN", "d");
                                       ("FROM", "f")]))
              "dialpad_settings.py" ∅).
Defined.

Lemma files_closed_once_witness :
  ∃ tr',
    main_files insertion_order dialpad_settings
      {| readable := true; writable := true;
         document := Some (Some [bare_create; testuserj]) |}
      (directory "") []
    = (None, [Open "f_in"; Open "f_out"; Close "f_in"; Close "f_out"], tr')
    ∧ tr' = [Row header].
Proof.
  destruct (files_closed_once insertion_order dialpad_settings (directory "")
              {| readable := true; writable := true;
                 document := Some (Some [bare_create; testuserj]) |} [])
    as (tr' & Hrun & _ & _ & Hbatch); [done.. |].
  exists tr'. split; [exact Hrun |]. by rewrite (Hbatch _ eq_refl).
Defined.
